(** * Stock-market analysis scripts: moving-average pipeline

    A shallow embedding of [apple_stock_analysis.py] and
    [apple_stock_data.py].  Both scripts download one year of daily
    price bars, add a simple-moving-average column to the dataframe,
    write a CSV file and save a chart.

    Layout of the development:
    - numbers, cells and Python exceptions;
    - the part of the dataframe library the scripts call (column
      lookup and assignment, projection, [reset_index], [to_csv],
      fixed-window [rolling(...).mean()]);
    - the interpreter state (object store, standard output, files) and
      a state-and-exception monad;
    - the two scripts, one module each;
    - the properties.

    A float64 column comes in two readings.  [Double] holds its cells
    as IEEE binary64 numbers, and the rolling mean on it is the
    library's compensated running sum in binary64 arithmetic.
    [Float64] holds the rationals the cells denote ([Some q], or the
    missing marker [NaN]) with exact arithmetic; it serves the
    statements in which rounding plays no part. *)

From Stdlib Require Import ZArith QArith Qabs Lia Lqa Sorted.
From Stdlib Require Import Ascii Floats Qpower.
From stdpp Require Import base option list strings pretty gmap.

(** ** Cells and columns *)

(** A calendar day, as its ordinal number.  Days are counted in [Z];
    the calendar of [datetime] has the ordinals 1 to 3652059 and
    [timedelta] takes at most 999999999 days.  The embedding does not
    check these bounds: it follows the scripts for spans inside them,
    as their 365 days are. *)
Definition date := Z.

(** A float64 cell; [None] is the not-a-number marker. *)
Definition cell := option Q.
Definition NaN : cell := None.

(** A column with its dtype.  [Float64] and [Double] are the two
    readings of dtype float64. *)
Inductive Column :=
| Float64 (values : list cell)
| Double (values : list float)
| Int64 (values : list Z)
| Datetime64 (values : list date).

(** The row labels: the trading days delivered by the download, or the
    default positional labels that [reset_index] leaves behind. *)
Inductive Index :=
| DatetimeIndex (name : option string) (labels : list date)
| RangeIndex (stop : nat).

(** A dataframe: row labels and named columns in column order. *)
Record DataFrame := mkDataFrame {
  index : Index;
  columns : list (string * Column)
}.

Definition index_len (ix : Index) : nat :=
  match ix with
  | DatetimeIndex _ labels => length labels
  | RangeIndex stop => stop
  end.

Definition column_names (df : DataFrame) : list string := (columns df).*1.

(** ** Exceptions *)

Inductive exn :=
| ValueError (msg : string)
| KeyError (key : string)
| DataError (msg : string)
| OSError (msg : string)
| DownloadError (msg : string)
| OverflowError (msg : string)
| SystemExit (code : Z).

(** [SystemExit] derives from [BaseException] only; every other
    exception here derives from [Exception]. *)
Definition is_Exception (e : exn) : bool :=
  match e with
  | SystemExit _ => false
  | _ => true
  end.

Inductive result (A : Type) :=
| Ok (a : A)
| Raise (e : exn).
Arguments Ok {A} a.
Arguments Raise {A} e.

(** ** The dataframe operations the scripts use *)

Fixpoint assoc (name : string) (cols : list (string * Column)) : option Column :=
  match cols with
  | [] => None
  | (n, c) :: rest => if String.eqb n name then Some c else assoc name rest
  end.

(** [df[name]] *)
Definition getitem (df : DataFrame) (name : string) : result Column :=
  match assoc name (columns df) with
  | Some c => Ok c
  | None => Raise (KeyError name)
  end.

Fixpoint assign (name : string) (c : Column) (cols : list (string * Column))
  : list (string * Column) :=
  match cols with
  | [] => [(name, c)]
  | (n, c0) :: rest =>
      if String.eqb n name then (n, c) :: rest else (n, c0) :: assign name c rest
  end.

(** [df[name] = c]: an existing column is replaced where it stands, a
    new one is appended. *)
Definition setitem (df : DataFrame) (name : string) (c : Column) : DataFrame :=
  {| index := index df; columns := assign name c (columns df) |}.

Definition mem (name : string) (cols : list (string * Column)) : bool :=
  match assoc name cols with
  | Some _ => true
  | None => false
  end.

(** The Python text of a string without quote or escape characters,
    and of a list of such strings. *)
Definition repr_str (s : string) : string := "'" +:+ s +:+ "'".

Definition repr_list (l : list string) : string :=
  "[" +:+ String.concat ", " (repr_str <$> l) +:+ "]".

(** The names of a list, each once, in the order of first occurrence. *)
Fixpoint unique (l : list string) : list string :=
  match l with
  | [] => []
  | x :: rest => x :: List.filter (fun y => negb (String.eqb x y)) (unique rest)
  end.

(** The requested names that are no columns. *)
Fixpoint not_found (names : list string) (cols : list (string * Column)) : list string :=
  match names with
  | [] => []
  | n :: rest => if mem n cols then not_found rest cols else n :: not_found rest cols
  end.

(** The requested columns in the requested order. *)
Fixpoint select (names : list string) (cols : list (string * Column))
  : list (string * Column) :=
  match names with
  | [] => []
  | n :: rest =>
      match assoc n cols with
      | Some c => (n, c) :: select rest cols
      | None => select rest cols
      end
  end.

(** [df[[n1, ..., nk]]]: the listed columns in the listed order.  When
    names are missing the [KeyError] lists them, each once; when all
    are, it shows the whole request. *)
Definition getitems (df : DataFrame) (names : list string) : result DataFrame :=
  let missing := not_found names (columns df) in
  if (length missing =? 0)%nat
  then Ok {| index := index df; columns := select names (columns df) |}
  else if (length missing =? length names)%nat
  then Raise (KeyError ("None of [Index(" +:+ repr_list names
                        +:+ ", dtype='object')] are in the [columns]"))
  else Raise (KeyError (repr_list (unique missing) +:+ " not in index")).

(** [df.empty]: some axis has length zero. *)
Definition empty (df : DataFrame) : bool :=
  (index_len (index df) =? 0)%nat || (length (columns df) =? 0)%nat.

(** [df.reset_index()]: the row labels become the first column, named
    after the index ([index] for an unnamed one, [level_0] when that is
    taken), and the frame gets positional labels. *)
Definition reset_index (df : DataFrame) : result DataFrame :=
  let n := index_len (index df) in
  let name :=
    match index df with
    | DatetimeIndex (Some nm) _ => nm
    | _ => if mem "index" (columns df) then "level_0" else "index"
    end in
  let col :=
    match index df with
    | DatetimeIndex _ labels => Datetime64 labels
    | RangeIndex stop => Int64 (Z.of_nat <$> seq 0 stop)
    end in
  if mem name (columns df)
  then Raise (ValueError ("cannot insert " +:+ name +:+ ", already exists"))
  else Ok {| index := RangeIndex n; columns := (name, col) :: columns df |}.

(** ** Fixed-window rolling mean *)

(** [numpy.clip] *)
Definition clip (x lo hi : Z) : Z := Z.min (Z.max x lo) hi.

(** Bounds of the window that ends at row [i]: with the defaults
    ([center=False], [closed='right']) the window is the half-open
    range [[i + 1 - window_size, i + 1)], clipped to the column. *)
Definition get_window_bounds (window_size num_values i : Z) : Z * Z :=
  let offset := if (window_size =? 0)%Z then ((window_size - 1) / 2)%Z else 0%Z in
  let e := (i + 1 + offset)%Z in
  let s := (e - window_size)%Z in
  (clip s 0 num_values, clip e 0 num_values).

(** [values[s:e]] for bounds already clipped to the column. *)
Definition slice {A} (values : list A) (s e : Z) : list A :=
  take (Z.to_nat e - Z.to_nat s) (drop (Z.to_nat s) values).

(** One observation enters the running count and sum; NaN is skipped. *)
Definition add_mean (acc : nat * Q) (val : cell) : nat * Q :=
  match val with
  | Some x => (S acc.1, acc.2 + x)%Q
  | None => acc
  end.

(** The mean of the observations seen, or NaN when there are fewer
    than [minp] of them. *)
Definition calc_mean (minp : Z) (nobs : nat) (sum_x : Q) : cell :=
  if (minp <=? Z.of_nat nobs)%Z && (0 <? nobs)%nat
  then Some (sum_x / inject_Z (Z.of_nat nobs))%Q
  else NaN.

Definition roll_mean_at (values : list cell) (window_size minp : Z) (i : nat) : cell :=
  let '(s, e) := get_window_bounds window_size (Z.of_nat (length values)) (Z.of_nat i) in
  let '(nobs, sum_x) := foldl add_mean (0%nat, 0%Q) (slice values s e) in
  calc_mean minp nobs sum_x.

Definition roll_mean (values : list cell) (window_size minp : Z) : list cell :=
  roll_mean_at values window_size minp <$> seq 0 (length values).

(** ** The rolling mean in binary64 arithmetic *)

(** The double nearest to an integer (the cast of an int64 to
    float64). *)
Definition Z2float (z : Z) : float := SF2Prim (binary_normalize prec emax z 0 false).

Module f64.

(** [val == val]: false for NaN only. *)
Definition notnan (val : float) : bool := (val =? val)%float.

Definition signbit (val : float) : bool :=
  match Prim2SF val with
  | S754_zero s => s
  | S754_infinity s => s
  | S754_finite s _ _ => s
  | S754_nan => false
  end.

(** The running state of the kernel. *)
Record state := mkState {
  nobs : Z;
  sum_x : float;
  neg_ct : Z;
  compensation_add : float;
  compensation_remove : float;
  num_consecutive_same_value : Z;
  prev_value : float
}.

(** An observation enters the window: compensated (Kahan) summation. *)
Definition add_mean (val : float) (st : state) : state :=
  if notnan val
  then
    let y := (val - compensation_add st)%float in
    let t := (sum_x st + y)%float in
    {| nobs := nobs st + 1;
       sum_x := t;
       neg_ct := if signbit val then neg_ct st + 1 else neg_ct st;
       compensation_add := (t - sum_x st - y)%float;
       compensation_remove := compensation_remove st;
       num_consecutive_same_value :=
         if (val =? prev_value st)%float
         then num_consecutive_same_value st + 1
         else 1;
       prev_value := val |}
  else st.

(** An observation leaves the window. *)
Definition remove_mean (val : float) (st : state) : state :=
  if notnan val
  then
    let y := (- val - compensation_remove st)%float in
    let t := (sum_x st + y)%float in
    {| nobs := nobs st - 1;
       sum_x := t;
       neg_ct := if signbit val then neg_ct st - 1 else neg_ct st;
       compensation_add := compensation_add st;
       compensation_remove := (t - sum_x st - y)%float;
       num_consecutive_same_value := num_consecutive_same_value st;
       prev_value := prev_value st |}
  else st.

Definition calc_mean (minp : Z) (st : state) : float :=
  if (minp <=? nobs st)%Z && (0 <? nobs st)%Z
  then
    let result := (sum_x st / Z2float (nobs st))%float in
    if (nobs st <=? num_consecutive_same_value st)%Z then prev_value st
    else if (neg_ct st =? 0)%Z && (result <? 0)%float then 0%float
    else if (neg_ct st =? nobs st)%Z && (0 <? result)%float then 0%float
    else result
  else nan.

(** The state a window starts from. *)
Definition setup (values : list float) (s : Z) : state :=
  {| nobs := 0;
     sum_x := 0;
     neg_ct := 0;
     compensation_add := 0;
     compensation_remove := 0;
     num_consecutive_same_value := 0;
     prev_value := default 0%float (values !! Z.to_nat s) |}.

(** One row of the loop: a window that does not overlap the previous
    one is summed from scratch, otherwise the observations that left
    are removed and the new ones added.  [prev] holds the bounds of
    the previous row, [None] on the first. *)
Definition row_step (values : list float) (prev : option (Z * Z)) (st : state)
           (cur : Z * Z) : state :=
  let fresh_window :=
    foldl (fun st val => add_mean val st) (setup values cur.1) (slice values cur.1 cur.2) in
  match prev with
  | None => fresh_window
  | Some (s0, e0) =>
      if (e0 <=? cur.1)%Z
      then fresh_window
      else
        foldl (fun st val => add_mean val st)
              (foldl (fun st val => remove_mean val st) st (slice values s0 cur.1))
              (slice values e0 cur.2)
  end.

Fixpoint roll_loop (values : list float) (minp : Z) (prev : option (Z * Z))
         (st : state) (bounds : list (Z * Z)) : list float :=
  match bounds with
  | [] => []
  | cur :: rest =>
      let st' := row_step values prev st cur in
      calc_mean minp st' :: roll_loop values minp (Some cur) st' rest
  end.

Definition roll_mean (values : list float) (window_size minp : Z) : list float :=
  roll_loop values minp None (setup values 0)
            ((fun i => get_window_bounds window_size (Z.of_nat (length values)) (Z.of_nat i))
               <$> seq 0 (length values)).

End f64.

(** The object [Series.rolling(window=...)] returns. *)
Record Rolling := mkRolling {
  obj : Column;
  window : Z;
  min_periods : option Z
}.

(** [s.rolling(window=window)]: a negative window is refused when the
    object is built; zero is accepted. *)
Definition rolling (s : Column) (window : Z) : result Rolling :=
  if (window <? 0)%Z
  then Raise (ValueError "window must be an integer 0 or greater")
  else Ok {| obj := s; window := window; min_periods := None |}.

(** The largest window the kernels take: they count in int64. *)
Definition int64_max : Z := 2 ^ 63 - 1.

(** The window bounds and [min_periods] are handed to the kernel as
    int64 unless the column is empty; a window that does not fit
    raises [OverflowError] (the text of the message is that of the
    integer conversion and varies with the library version). *)
Definition kernel_call {A B} (values : list A) (window : Z) (kernel : list A -> B)
  : result B :=
  if (0 <? length values)%nat && (int64_max <? window)%Z
  then Raise (OverflowError "Python int too large to convert to C long")
  else Ok (kernel values).

(** [r.mean()]: [min_periods] defaults to the window size; integer
    columns are cast to float64 first, datetime columns are refused. *)
Definition mean (r : Rolling) : result Column :=
  let minp := default (window r) (min_periods r) in
  match obj r with
  | Float64 v =>
      match kernel_call v (window r) (fun v => roll_mean v (window r) minp) with
      | Ok out => Ok (Float64 out)
      | Raise e => Raise e
      end
  | Double v =>
      match kernel_call v (window r) (fun v => f64.roll_mean v (window r) minp) with
      | Ok out => Ok (Double out)
      | Raise e => Raise e
      end
  | Int64 v =>
      match kernel_call (Z2float <$> v) (window r)
                        (fun v => f64.roll_mean v (window r) minp) with
      | Ok out => Ok (Double out)
      | Raise e => Raise e
      end
  | Datetime64 _ => Raise (DataError "No numeric types to aggregate")
  end.

(** ** Interpreter state *)

(** Objects live in a store and are passed by reference. *)
Definition loc := nat.

(** What an f-string interpolates; [print] receives the pieces. *)
Inductive piece :=
| Text (s : string)
| Int (z : Z)
| Day (d : date)
| Exc (e : exn).

(** A CSV field; a NaN cell is written as the empty field. *)
Inductive field :=
| FEmpty
| FNum (q : Q)
| FDouble (x : float)
| FInt (z : Z)
| FDay (d : date).

Definition field_of_cell (c : cell) : field :=
  match c with
  | Some q => FNum q
  | None => FEmpty
  end.

Definition field_of_double (x : float) : field :=
  if f64.notnan x then FDouble x else FEmpty.

Record csv := mkCsv {
  header : list string;
  rows : list (list field)
}.

Definition header_line (f : csv) : string := String.concat "," (header f).

(** One plotted line: legend label, x values, y values. *)
Record chart := mkChart {
  title : string;
  lines : list (string * Column * Column)
}.

Inductive file :=
| CsvFile (content : csv)
| PngFile (content : chart).

Record world := mkWorld {
  frames : gmap loc DataFrame;
  stdout : list (list piece);
  files : gmap string file
}.

(** What the scripts cannot control: the clock, the answer of the
    market-data service and which paths can be written. *)
Inductive download_outcome :=
| Downloaded (df : DataFrame)
| Failed (msg : string).

Record env := mkEnv {
  now : date;
  yf_download : string -> date -> date -> download_outcome;
  writable : string -> bool
}.

(** ** State-and-exception monad *)

Definition M (A : Type) : Type := world -> result A * world.

Definition ret {A} (a : A) : M A := fun σ => (Ok a, σ).

Definition bind {A B} (m : M A) (k : A -> M B) : M B :=
  fun σ =>
    match m σ with
    | (Ok a, σ') => k a σ'
    | (Raise e, σ') => (Raise e, σ')
    end.

Definition raise {A} (e : exn) : M A := fun σ => (Raise e, σ).

Definition lift {A} (r : result A) : M A := fun σ => (r, σ).

Declare Scope py_scope.
Delimit Scope py_scope with py.
Notation "x <- m ;; k" := (bind m (fun x => k))
  (at level 100, m at next level, right associativity) : py_scope.
Notation "m ;; k" := (bind m (fun _ => k))
  (at level 100, k at level 200, right associativity) : py_scope.
Local Open Scope py_scope.

(** [try: body except Exception as e: handler e] *)
Definition try_except {A} (body : M A) (handler : exn -> M A) : M A :=
  fun σ =>
    match body σ with
    | (Ok a, σ') => (Ok a, σ')
    | (Raise e, σ') => if is_Exception e then handler e σ' else (Raise e, σ')
    end.

Definition print (msg : list piece) : M unit :=
  fun σ => (Ok tt, {| frames := frames σ; stdout := stdout σ ++ [msg]; files := files σ |}).

(** [sys.exit(code)] *)
Definition sys_exit {A} (code : Z) : M A := raise (SystemExit code).

(** A new object in the store. *)
Definition alloc (df : DataFrame) : M loc :=
  fun σ =>
    let l := fresh (dom (frames σ)) in
    (Ok l, {| frames := <[l := df]> (frames σ); stdout := stdout σ; files := files σ |}).

(** Reading through a reference.  References held by a script always
    point into the store; the other branch keeps the function total. *)
Definition load (l : loc) : M DataFrame :=
  fun σ =>
    match frames σ !! l with
    | Some df => (Ok df, σ)
    | None => (Raise (ValueError "dangling reference"), σ)
    end.

(** Updating an object in place. *)
Definition store (l : loc) (df : DataFrame) : M unit :=
  fun σ => (Ok tt, {| frames := <[l := df]> (frames σ); stdout := stdout σ; files := files σ |}).

Definition write_file (E : env) (path : string) (f : file) : M unit :=
  fun σ =>
    if writable E path
    then (Ok tt, {| frames := frames σ; stdout := stdout σ; files := <[path := f]> (files σ) |})
    else (Raise (OSError path), σ).

(** ** Calls into the libraries, on references *)

(** [yf.download(ticker, start=..., end=...)] *)
Definition download (E : env) (ticker : string) (start_date end_date : date) : M loc :=
  match yf_download E ticker start_date end_date with
  | Downloaded df => alloc df
  | Failed msg => raise (DownloadError msg)
  end.

(** [data[names]]: a new frame. *)
Definition getitems_ref (data : loc) (names : list string) : M loc :=
  df <- load data ;;
  picked <- lift (getitems df names) ;;
  alloc picked.

(** [data.copy()] *)
Definition copy (data : loc) : M loc :=
  df <- load data ;;
  alloc df.

(** [data.reset_index(inplace=True)] *)
Definition reset_index_inplace (data : loc) : M unit :=
  df <- load data ;;
  df' <- lift (reset_index df) ;;
  store data df'.

Definition field_at (c : Column) (i : nat) : field :=
  match c with
  | Float64 v => from_option field_of_cell FEmpty (v !! i)
  | Double v => from_option field_of_double FEmpty (v !! i)
  | Int64 v => from_option FInt FEmpty (v !! i)
  | Datetime64 v => from_option FDay FEmpty (v !! i)
  end.

(** The table [to_csv(..., index=False)] writes: the column names,
    then one record per row. *)
Definition csv_of (df : DataFrame) : csv :=
  {| header := column_names df;
     rows := (fun i => (fun nc => field_at nc.2 i) <$> columns df)
               <$> seq 0 (index_len (index df)) |}.

(** [data.to_csv(filename, index=False)] *)
Definition to_csv (E : env) (data : loc) (filename : string) : M unit :=
  df <- load data ;;
  write_file E filename (CsvFile (csv_of df)).

(** The row labels as plotted on the x axis. *)
Definition index_values (ix : Index) : Column :=
  match ix with
  | DatetimeIndex _ labels => Datetime64 labels
  | RangeIndex stop => Int64 (Z.of_nat <$> seq 0 stop)
  end.

(** The process status of [if __name__ == "__main__": main()]: normal
    return gives 0, [sys.exit(code)] gives [code], any other uncaught
    exception gives 1 after a traceback. *)
Record outcome := mkOutcome {
  status : Z;
  traceback : option exn;
  final : world
}.

Definition run_script {A} (main : M A) (σ : world) : outcome :=
  match main σ with
  | (Ok _, σ') => {| status := 0; traceback := None; final := σ' |}
  | (Raise (SystemExit code), σ') => {| status := code; traceback := None; final := σ' |}
  | (Raise e, σ') => {| status := 1; traceback := Some e; final := σ' |}
  end.

(** The column name [f'{window}_SMA']. *)
Definition sma_name (window : Z) : string := pretty window +:+ "_SMA".

(** ** apple_stock_analysis.py *)

Module apple_stock_analysis.

Section Script.
Variable E : env.

Definition fetch_stock_data (ticker : string) (days_back : Z) : M loc :=
  let end_date := now E in
  let start_date := (end_date - days_back)%Z in
  print [Text "Fetching "; Int days_back; Text " days of historical data for ";
         Text ticker; Text "..."] ;;
  data <- download E ticker start_date end_date ;;
  df <- load data ;;
  if empty df
  then raise (ValueError ("No data found for ticker " +:+ ticker))
  else
    print [Text "Data fetched successfully!"] ;;
    ret data.

Definition calculate_sma (data : loc) (window : Z) : M loc :=
  print [Text "Calculating "; Int window; Text "-day SMA..."] ;;
  df <- load data ;;
  close <- lift (getitem df "Close") ;;
  r <- lift (rolling close window) ;;
  sma <- lift (mean r) ;;
  store data (setitem df (sma_name window) sma) ;;
  ret data.

Definition process_and_save_data (data : loc) (filename : string) : M unit :=
  selected <- getitems_ref data ["Open"; "High"; "Low"; "Close"; "10_SMA"] ;;
  processed_data <- copy selected ;;
  reset_index_inplace processed_data ;;
  print [Text "Saving data to "; Text filename; Text "..."] ;;
  to_csv E processed_data filename ;;
  print [Text "Data successfully saved to "; Text filename; Text "!"].

Definition lower_ascii (a : ascii) : ascii :=
  let n := Ascii.nat_of_ascii a in
  if (65 <=? n)%nat && (n <=? 90)%nat then Ascii.ascii_of_nat (n + 32) else a.

(** [str.lower] on ASCII text. *)
Fixpoint lower (s : string) : string :=
  match s with
  | EmptyString => EmptyString
  | String a rest => String (lower_ascii a) (lower rest)
  end.

Definition visualize_data (data : loc) (ticker : string) : M unit :=
  print [Text "Creating visualization..."] ;;
  df <- load data ;;
  close <- lift (getitem df "Close") ;;
  sma <- lift (getitem df "10_SMA") ;;
  let fig :=
    {| title := ticker +:+ " Stock Price with 10-Day SMA (Last 365 Days)";
       lines := [("Closing Price", index_values (index df), close);
                 ("10-Day SMA", index_values (index df), sma)] |} in
  let plot_filename := lower ticker +:+ "_chart.png" in
  write_file E plot_filename (PngFile fig) ;;
  print [Text "Plot saved as "; Text plot_filename; Text "!"].

(** The body of [main] over its configuration constants. *)
Definition main_with (ticker : string) (sma_window days_back : Z)
           (output_csv : string) : M unit :=
  try_except
    (stock_data <- fetch_stock_data ticker days_back ;;
     stock_data <- calculate_sma stock_data sma_window ;;
     process_and_save_data stock_data output_csv ;;
     visualize_data stock_data ticker)
    (fun e => print [Text "An error occurred: "; Exc e]).

Definition main : M unit :=
  main_with "AAPL" 10 365 "apple_stock_data.csv".

End Script.

End apple_stock_analysis.

(** ** apple_stock_data.py *)

Module apple_stock_data.

Section Script.
Variable E : env.

Definition fetch_stock_data (ticker : string) (start_date end_date : date) : M loc :=
  try_except
    (data <- download E ticker start_date end_date ;;
     df <- load data ;;
     if empty df
     then
       print [Text "No data found for ticker "; Text ticker;
              Text " in the given date range."] ;;
       sys_exit 1
     else ret data)
    (fun e =>
       print [Text "Error fetching data for "; Text ticker; Text ": "; Exc e] ;;
       sys_exit 1).

Definition calculate_sma (data : loc) (window : Z) : M loc :=
  df <- load data ;;
  close <- lift (getitem df "Close") ;;
  r <- lift (rolling close window) ;;
  sma <- lift (mean r) ;;
  store data (setitem df (sma_name window) sma) ;;
  ret data.

Definition save_to_csv (data : loc) (filename : string) : M unit :=
  to_csv E data filename ;;
  print [Text "Data saved to "; Text filename].

Definition plot_data (data : loc) (ticker : string) (sma_window : Z)
           (save_image : bool) : M unit :=
  df <- load data ;;
  dates <- lift (getitem df "Date") ;;
  close <- lift (getitem df "Close") ;;
  sma <- lift (getitem df (sma_name sma_window)) ;;
  let fig :=
    {| title := ticker +:+ " - Closing Price & " +:+ pretty sma_window +:+ "-Day SMA";
       lines := [("Close Price", dates, close);
                 (pretty sma_window +:+ "-Day SMA", dates, sma)] |} in
  if save_image
  then
    let image_filename := "apple_chart.png" in
    write_file E image_filename (PngFile fig) ;;
    print [Text "Plot saved as "; Text image_filename]
  else ret tt.

(** The body of [main] over its configuration constants. *)
Definition main_with (ticker : string) (sma_window : Z) : M unit :=
  let end_date := now E in
  let start_date := (end_date - 365)%Z in
  print [Text "Fetching data for "; Text ticker; Text " from "; Day start_date;
         Text " to "; Day end_date; Text "..."] ;;
  data <- fetch_stock_data ticker start_date end_date ;;
  data <- calculate_sma data sma_window ;;
  reset_index_inplace data ;;
  final_data <- getitems_ref data
                  ["Date"; "Open"; "High"; "Low"; "Close"; sma_name sma_window] ;;
  let csv_filename := "apple_stock_data.csv" in
  save_to_csv final_data csv_filename ;;
  plot_data final_data ticker sma_window true.

Definition main : M unit := main_with "AAPL" 10.

End Script.

End apple_stock_data.

(** * Specification vocabulary *)




(** A column of numbers: no cell is NaN. *)
Definition numeric (closes : list Q) : list cell := Some <$> closes.


(** The two readings of a float64 column. *)
Definition is_float (c : Column) : bool :=
  match c with
  | Float64 _ | Double _ => true
  | _ => false
  end.

Definition column_length (c : Column) : nat :=
  match c with
  | Float64 v => length v
  | Double v => length v
  | Int64 v => length v
  | Datetime64 v => length v
  end.

(** The entry at row [i] of a float64 column is the missing marker. *)
Definition missing_at (c : Column) (i : nat) : Prop :=
  match c with
  | Float64 v => v !! i = Some NaN
  | Double v => v !! i = Some nan
  | _ => False
  end.

(** The rolling mean of a float64 column for a window the kernel takes. *)
Definition rolled (close : Column) (w : Z) : Column :=
  match close with
  | Float64 v => Float64 (roll_mean v w w)
  | Double v => Double (f64.roll_mean v w w)
  | c => c
  end.

(** [close.rolling(window=w).mean()] *)
Definition rolling_mean (close : Column) (w : Z) : result Column :=
  match rolling close w with
  | Ok r => mean r
  | Raise e => Raise e
  end.

(** What [calculate_sma] does to a state in which [data] refers to
    [df], given the state [σp] after its progress message. *)
Definition calculated (σp : world) (data : loc) (df : DataFrame) (w : Z)
  : result loc * world :=
  match getitem df "Close" with
  | Raise e => (Raise e, σp)
  | Ok close =>
      match rolling_mean close w with
      | Raise e => (Raise e, σp)
      | Ok sma =>
          (Ok data,
           {| frames := <[data := setitem df (sma_name w) sma]> (frames σp);
              stdout := stdout σp;
              files := files σp |})
      end
  end.

(** Run in [σ], [calc data w] returns its argument and leaves the
    frame [df'] behind that reference. *)
Definition leaves (calc : loc -> Z -> M loc) (data : loc) (w : Z)
           (σ : world) (df' : DataFrame) : Prop :=
  exists σ', calc data w σ = (Ok data, σ') /\ frames σ' !! data = Some df'.

(** Run in [σ], where [data] refers to [df], [calc data w] leaves
    behind that reference a frame with the row labels of [df] in which
    every column not named [f'{w}_SMA'] is as it was, the four price
    columns among them; at most that one column name is new; no other
    object of the store is touched and no file is written. *)
Definition keeps_frame (calc : loc -> Z -> M loc) (data : loc) (w : Z)
           (σ : world) (df : DataFrame) : Prop :=
  exists r σ' df',
    calc data w σ = (r, σ') /\
    frames σ' !! data = Some df' /\
    index df' = index df /\
    (forall name, name <> sma_name w ->
                  assoc name (columns df') = assoc name (columns df)) /\
    Forall (fun name => assoc name (columns df') = assoc name (columns df))
           ["Open"; "High"; "Low"; "Close"] /\
    (column_names df' = column_names df
     \/ column_names df' = column_names df ++ [sma_name w]) /\
    (forall l, l <> data -> frames σ' !! l = frames σ !! l) /\
    files σ' = files σ.

(** Every exception that escapes from [m] satisfies [P]. *)
Definition raises_only {A} (P : exn -> Prop) (m : M A) : Prop :=
  forall σ e σ', m σ = (Raise e, σ') -> P e.

(** The same for a library call that returns at once. *)
Definition fails_only {A} (P : exn -> Prop) (r : result A) : Prop :=
  forall e, r = Raise e -> P e.

(** The exceptions an [except Exception] clause catches. *)
Definition caught (e : exn) : Prop := is_Exception e = true.

(** The fetch step has nothing to deliver: the call failed or the
    frame is empty. *)
Definition fetch_fails (E : env) (ticker : string) (start_date end_date : date) : bool :=
  match yf_download E ticker start_date end_date with
  | Failed _ => true
  | Downloaded df => empty df
  end.

(** A frame as the market-data service delivers it: one row per
    trading day, labelled by the day in increasing order, with the four
    price columns. *)
Record price_series (df : DataFrame) (dates : list date) (closes : list Q) : Prop := {
  ps_index : index df = DatetimeIndex (Some "Date") dates;
  ps_rows : dates <> [];
  ps_sorted : Sorted Z.lt dates;
  ps_open : is_Some (assoc "Open" (columns df));
  ps_high : is_Some (assoc "High" (columns df));
  ps_low : is_Some (assoc "Low" (columns df));
  ps_close : assoc "Close" (columns df) = Some (Float64 (numeric closes));
  ps_close_len : length closes = length dates;
  ps_no_date : assoc "Date" (columns df) = None
}.

(** The last character of a string, if any. *)
Fixpoint last_char (s : string) : option ascii :=
  match s with
  | EmptyString => None
  | String a rest =>
      match last_char rest with
      | Some b => Some b
      | None => Some a
      end
  end.

(** The table both scripts hand to the CSV writer for a price series:
    the days, the four price columns and the moving average. *)
Definition price_table (dates : list date) (o h l : Column) (closes : list Q) (w : Z)
  : DataFrame :=
  {| index := RangeIndex (length dates);
     columns := [("Date", Datetime64 dates); ("Open", o); ("High", h); ("Low", l);
                 ("Close", Float64 (numeric closes));
                 (sma_name w, Float64 (roll_mean (numeric closes) w w))] |}.


(** The process starts with an empty object store and nothing printed. *)
Definition start (fs : gmap string file) : world :=
  {| frames := ∅; stdout := []; files := fs |}.

(** ** Sample data *)

(** Three trading days with closes 2, 4, 6. *)
Definition sample_frame : DataFrame :=
  {| index := DatetimeIndex (Some "Date") [1; 2; 3]%Z;
     columns := [("Open", Float64 (numeric [1; 3; 5]%Q));
                 ("High", Float64 (numeric [3; 5; 7]%Q));
                 ("Low", Float64 (numeric [1; 2; 4]%Q));
                 ("Close", Float64 (numeric [2; 4; 6]%Q))] |}.

(** A state in which reference 0 is the sample frame. *)
Definition sample_world : world :=
  {| frames := {[ 0%nat := sample_frame ]}; stdout := []; files := ∅ |}.

(** Twelve trading days with closes 1, ..., 12. *)
Definition sample_series : DataFrame :=
  {| index := DatetimeIndex (Some "Date") [1; 2; 3; 4; 5; 8; 9; 10; 11; 12; 15; 16]%Z;
     columns :=
       [("Open", Float64 (numeric [1; 2; 3; 4; 5; 6; 7; 8; 9; 10; 11; 12]%Q));
        ("High", Float64 (numeric [2; 3; 4; 5; 6; 7; 8; 9; 10; 11; 12; 13]%Q));
        ("Low", Float64 (numeric [1; 1; 2; 3; 4; 5; 6; 7; 8; 9; 10; 11]%Q));
        ("Close", Float64 (numeric [1; 2; 3; 4; 5; 6; 7; 8; 9; 10; 11; 12]%Q));
        ("Volume", Int64 [10; 20; 30; 40; 50; 60; 70; 80; 90; 100; 110; 120]%Z)] |}.

(** The service answers with the sample series; every path is writable. *)
Definition sample_env : env :=
  {| now := 400%Z;
     yf_download := fun _ _ _ => Downloaded sample_series;
     writable := fun _ => true |}.

(** The service cannot be reached. *)
Definition offline_env : env :=
  {| now := 400%Z;
     yf_download := fun _ _ _ => Failed "connection refused";
     writable := fun _ => true |}.

(** The service answers, but no path can be written. *)
Definition readonly_env : env :=
  {| now := 400%Z;
     yf_download := fun _ _ _ => Downloaded sample_series;
     writable := fun _ => false |}.

(** ** More vocabulary *)

(** Two calculation steps in a row on the same reference, first with
    window [w1]. *)
Definition twice (calc : loc -> Z -> M loc) (w1 : Z) (data : loc) (w2 : Z) : M loc :=
  d <- calc data w1 ;; calc d w2.

(** A frame without a close column. *)
Definition volume_frame : DataFrame :=
  {| index := DatetimeIndex (Some "Date") [1; 2; 3]%Z;
     columns := [("Volume", Int64 [10; 20; 30]%Z)] |}.

Definition volume_world : world :=
  {| frames := {[ 0%nat := volume_frame ]}; stdout := []; files := ∅ |}.

(** The service answers and the CSV file can be written, the chart
    cannot. *)
Definition chartless_env : env :=
  {| now := 400%Z;
     yf_download := fun _ _ _ => Downloaded sample_series;
     writable := fun path => String.eqb path "apple_stock_data.csv" |}.

(** ** Vocabulary for the binary64 kernel *)

(** The bounds of the window of row [i]. *)
Definition row_bounds {A} (values : list A) (w : Z) (i : nat) : Z * Z :=
  get_window_bounds w (Z.of_nat (length values)) (Z.of_nat i).

(** The state of the kernel when row [i] is written. *)
Fixpoint state_at (values : list float) (w : Z) (i : nat) : f64.state :=
  match i with
  | O => f64.row_step values None (f64.setup values 0) (row_bounds values w 0)
  | S k =>
      f64.row_step values (Some (row_bounds values w k)) (state_at values w k)
                   (row_bounds values w (S k))
  end.

(** How many cells of a list satisfy a test. *)
Fixpoint count (p : float -> bool) (l : list float) : Z :=
  match l with
  | [] => 0
  | x :: rest => ((if p x then 1 else 0) + count p rest)%Z
  end.

Definition negative (val : float) : bool := f64.notnan val && f64.signbit val.

(** The number a binary64 value denotes; the infinities and NaN denote
    none. *)
Definition SF2Q (f : spec_float) : option Q :=
  match f with
  | S754_zero _ => Some 0%Q
  | S754_finite s m e =>
      Some ((if s then - inject_Z (Z.pos m) else inject_Z (Z.pos m)) * 2 ^ e)%Q
  | _ => None
  end.

Definition value (x : float) : option Q := SF2Q (Prim2SF x).

Definition denotes (x : float) (q : Q) : Prop :=
  exists a, value x = Some a /\ (a == q)%Q.

(** [r], the result of an operation in binary64, is the exact result
    [q]: nothing was rounded and nothing overflowed. *)
Definition exact (r : float) (q : option Q) : bool :=
  match value r, q with
  | Some a, Some b => Qeq_bool a b
  | _, _ => false
  end.
















(** ** Sample data in binary64 *)

(** Two trading days with closes 1e17 and 3. *)
Definition large_frame : DataFrame :=
  {| index := DatetimeIndex (Some "Date") [1; 2]%Z;
     columns := [("Close", Double [1e17; 3]%float)] |}.

Definition large_world : world :=
  {| frames := {[ 0%nat := large_frame ]}; stdout := []; files := ∅ |}.

(** Four trading days with closes 2, 4, 6, 9. *)
Definition double_frame : DataFrame :=
  {| index := DatetimeIndex (Some "Date") [1; 2; 3; 4]%Z;
     columns := [("Open", Double [1; 3; 5; 7]%float);
                 ("High", Double [3; 5; 7; 9]%float);
                 ("Low", Double [1; 2; 4; 6]%float);
                 ("Close", Double [2; 4; 6; 9]%float)] |}.

Definition double_world : world :=
  {| frames := {[ 0%nat := double_frame ]}; stdout := []; files := ∅ |}.

(** Three trading days with closes 2^1023, 1.5 * 2^1023 and 1. *)
Definition huge_frame : DataFrame :=
  {| index := DatetimeIndex (Some "Date") [1; 2; 3]%Z;
     columns := [("Close", Double [0x1p+1023; 0x1.8p+1023; 1]%float)] |}.

Definition huge_world : world :=
  {| frames := {[ 0%nat := huge_frame ]}; stdout := []; files := ∅ |}.

(** Five trading days; the close of the third is missing. *)
Definition double_gappy_frame : DataFrame :=
  {| index := DatetimeIndex (Some "Date") [1; 2; 3; 4; 5]%Z;
     columns := [("Close", Double [2; 4; nan; 8; 10]%float)] |}.

Definition double_gappy_world : world :=
  {| frames := {[ 0%nat := double_gappy_frame ]}; stdout := []; files := ∅ |}.

(** The four-day frame one trading day later. *)
Definition double_longer_frame : DataFrame :=
  {| index := DatetimeIndex (Some "Date") [1; 2; 3; 4; 5]%Z;
     columns := [("Close", Double ([2; 4; 6; 9] ++ [7])%float)] |}.

Definition double_longer_world : world :=
  {| frames := {[ 0%nat := double_longer_frame ]}; stdout := []; files := ∅ |}.

(** The first window size the kernels do not take. *)
Definition too_wide : Z := 2 ^ 63.

(** ** The two [main] functions in parts *)

(** The guarded body of [main] in [apple_stock_analysis.py]. *)
Definition analysis_body (E : env) : M unit :=
  stock_data <- apple_stock_analysis.fetch_stock_data E "AAPL" 365 ;;
  stock_data <- apple_stock_analysis.calculate_sma stock_data 10 ;;
  apple_stock_analysis.process_and_save_data E stock_data "apple_stock_data.csv" ;;
  apple_stock_analysis.visualize_data E stock_data "AAPL".

(** The state in which [main] of [apple_stock_data.py] calls its fetch
    step: the first progress line is printed. *)
Definition announced (E : env) (σ : world) : world :=
  {| frames := frames σ;
     stdout := stdout σ ++ [[Text "Fetching data for "; Text "AAPL"; Text " from ";
                             Day (now E - 365)%Z; Text " to "; Day (now E); Text "..."]];
     files := files σ |}.

(** The steps of [main] in [apple_stock_data.py] after the fetch. *)
Definition data_after_fetch (E : env) (data : loc) : M unit :=
  data <- apple_stock_data.calculate_sma data 10 ;;
  reset_index_inplace data ;;
  final_data <- getitems_ref data ["Date"; "Open"; "High"; "Low"; "Close"; sma_name 10] ;;
  apple_stock_data.save_to_csv E final_data "apple_stock_data.csv" ;;
  apple_stock_data.plot_data E final_data "AAPL" 10 true.

(** * Properties *)
(** ** The rolling mean on the reference scenarios *)

Example roll_mean_ten_days :
  option_map Qred <$> roll_mean (numeric [1; 2; 3; 4; 5; 6; 7; 8; 9; 10]%Q) 10 10
  = [NaN; NaN; NaN; NaN; NaN; NaN; NaN; NaN; NaN; Some (11 # 2)].
Proof. reflexivity. Qed.

Example roll_mean_three_days :
  option_map Qred <$> roll_mean (numeric [2; 4; 6]%Q) 2 2 = [NaN; Some 3%Q; Some 5%Q].
Proof. reflexivity. Qed.

Example roll_mean_no_days : roll_mean [] 10 10 = [].
Proof. reflexivity. Qed.

(** A missing close leaves every window it falls into without a mean. *)
Example roll_mean_gap :
  option_map Qred <$> roll_mean [Some 1%Q; NaN; Some 3%Q; Some 4%Q] 2 2
  = [NaN; NaN; NaN; Some (7 # 2)].
Proof. reflexivity. Qed.

Section RollMean.

Implicit Types (values : list cell) (closes : list Q) (w minp : Z) (i : nat).

Lemma roll_mean_length values w minp :
  length (roll_mean values w minp) = length values.
Proof. unfold roll_mean. by rewrite length_fmap, length_seq. Qed.

Lemma roll_mean_lookup values w minp i :
  i < length values ->
  roll_mean values w minp !! i = Some (roll_mean_at values w minp i).
Proof.
  intros Hi. unfold roll_mean.
  rewrite list_lookup_fmap, lookup_seq_lt by done. done.
Qed.

Lemma get_window_bounds_pos w i (n : nat) :
  (0 < w)%Z -> i < n ->
  get_window_bounds w (Z.of_nat n) (Z.of_nat i)
  = (Z.max (Z.of_nat i + 1 - w) 0, (Z.of_nat i + 1)%Z).
Proof.
  intros Hw Hi. unfold get_window_bounds, clip.
  destruct (Z.eqb_spec w 0); [lia|]. f_equal; lia.
Qed.

Lemma get_window_bounds_zero i (n : nat) :
  i < n ->
  get_window_bounds 0 (Z.of_nat n) (Z.of_nat i) = (Z.of_nat i, Z.of_nat i).
Proof.
  intros Hi. unfold get_window_bounds, clip. rewrite Z.eqb_refl.
  change ((0 - 1) / 2)%Z with (-1)%Z. f_equal; lia.
Qed.

Lemma add_mean_count (l : list cell) (acc : nat * Q) :
  (foldl add_mean acc l).1 <= acc.1 + length l.
Proof.
  revert acc. induction l as [|[x|] l IH]; intros acc; simpl.
  - lia.
  - etrans; [apply IH|]. simpl. lia.
  - etrans; [apply IH|]. lia.
Qed.



(** Before a full window is available the entry is NaN. *)
Lemma roll_mean_at_warmup values w i :
  (0 < w)%Z -> i < length values -> (Z.of_nat i < w - 1)%Z ->
  roll_mean_at values w w i = NaN.
Proof.
  intros Hw Hi Hlt. unfold roll_mean_at.
  rewrite get_window_bounds_pos by done.
  destruct (foldl add_mean (0, 0%Q) _) as [nobs sum_x] eqn:Hf.
  pose proof (add_mean_count
    (slice values (Z.max (Z.of_nat i + 1 - w) 0) (Z.of_nat i + 1)) (0, 0%Q)) as Hc.
  rewrite Hf in Hc. simpl in Hc. unfold slice in Hc.
  rewrite length_take in Hc.
  unfold calc_mean.
  destruct (Z.leb_spec w (Z.of_nat nobs)); [lia|done].
Qed.





End RollMean.

(** ** Running the monad *)

Section Runs.

Context {A B : Type}.

Lemma bind_Ok (m : M A) (k : A -> M B) σ a σ' :
  m σ = (Ok a, σ') -> bind m k σ = k a σ'.
Proof. intros H. unfold bind. by rewrite H. Qed.

Lemma bind_Raise (m : M A) (k : A -> M B) σ e σ' :
  m σ = (Raise e, σ') -> bind m k σ = (Raise e, σ').
Proof. intros H. unfold bind. by rewrite H. Qed.

End Runs.

(** ** The calculation step of both scripts *)

Lemma analysis_calculate_sma_run σ data df w :
  frames σ !! data = Some df ->
  apple_stock_analysis.calculate_sma data w σ
  = calculated
      {| frames := frames σ;
         stdout := stdout σ ++ [[Text "Calculating "; Int w; Text "-day SMA..."]];
         files := files σ |} data df w.
Proof.
  intros Hl.
  unfold apple_stock_analysis.calculate_sma, calculated, rolling_mean,
    bind, print, load, lift, store, ret.
  simpl. rewrite Hl.
  destruct (getitem df "Close") as [close|]; [|done].
  destruct (rolling close w) as [r|]; [|done].
  by destruct (mean r).
Qed.

Lemma data_calculate_sma_run σ data df w :
  frames σ !! data = Some df ->
  apple_stock_data.calculate_sma data w σ = calculated σ data df w.
Proof.
  intros Hl.
  unfold apple_stock_data.calculate_sma, calculated, rolling_mean,
    bind, load, lift, store, ret.
  rewrite Hl.
  destruct (getitem df "Close") as [close|]; [|done].
  destruct (rolling close w) as [r|]; [|done].
  destruct (mean r); [|done]. by destruct σ.
Qed.

(** ** Column lookup and assignment *)

Lemma assoc_assign_eq name c cols : assoc name (assign name c cols) = Some c.
Proof.
  induction cols as [|[n c0] cols IH]; simpl.
  - by rewrite String.eqb_refl.
  - destruct (String.eqb n name) eqn:Hn; simpl; by rewrite Hn.
Qed.

Lemma assoc_assign_ne name name' c cols :
  name <> name' -> assoc name' (assign name c cols) = assoc name' cols.
Proof.
  intros Hne. induction cols as [|[n c0] cols IH]; simpl.
  - destruct (String.eqb_spec name name'); done.
  - destruct (String.eqb_spec n name) as [->|]; simpl.
    + destruct (String.eqb_spec name name'); done.
    + by rewrite IH.
Qed.

Lemma assign_names name c cols :
  (assign name c cols).*1
  = if mem name cols then cols.*1 else cols.*1 ++ [name].
Proof.
  unfold mem. induction cols as [|[n c0] cols IH]; simpl; [done|].
  destruct (String.eqb_spec n name) as [->|]; simpl; [done|].
  destruct (assoc name cols); simpl in IH |- *; by f_equal.
Qed.

Lemma getitem_setitem df name c : getitem (setitem df name c) name = Ok c.
Proof. unfold getitem, setitem. simpl. by rewrite assoc_assign_eq. Qed.

(** ** The name of the moving-average column *)

Lemma length_append s t :
  String.length (s +:+ t) = String.length s + String.length t.
Proof. induction s as [|a s IH]; simpl; [done|]. by rewrite IH. Qed.

Lemma append_inj_r s1 s2 t : s1 +:+ t = s2 +:+ t -> s1 = s2.
Proof.
  intros H.
  assert (String.length s1 = String.length s2) as Hlen.
  { apply (f_equal String.length) in H. rewrite !length_append in H. lia. }
  revert s2 H Hlen. induction s1 as [|a s1 IH]; intros [|b s2] H Hlen;
    simpl in Hlen; try done.
  injection H as -> H. f_equal. apply IH; [done|lia].
Qed.

Lemma last_char_append s t :
  t <> EmptyString -> last_char (s +:+ t) = last_char t.
Proof.
  intros Ht. induction s as [|a s IH]; simpl; [done|].
  rewrite IH. destruct t as [|b t]; [done|]. simpl.
  by destruct (last_char t).
Qed.

Lemma sma_name_last w : last_char (sma_name w) = Some "A"%char.
Proof. unfold sma_name. by rewrite last_char_append. Qed.

Lemma sma_name_inj w1 w2 : sma_name w1 = sma_name w2 -> w1 = w2.
Proof. unfold sma_name. intros H%append_inj_r. by apply (inj pretty). Qed.

Lemma sma_name_10 w : sma_name w = "10_SMA" <-> w = 10%Z.
Proof.
  split; [|by intros ->].
  change "10_SMA" with (sma_name 10). apply sma_name_inj.
Qed.

(** No price column is named like a moving-average column. *)
Lemma sma_name_not_price w name :
  name ∈ ["Open"; "High"; "Low"; "Close"; "Date"] -> sma_name w <> name.
Proof.
  intros Hin Heq. pose proof (sma_name_last w) as Hl. rewrite Heq in Hl.
  repeat (apply elem_of_cons in Hin as [->|Hin]; [by vm_compute in Hl|]).
  by apply elem_of_nil in Hin.
Qed.

(** ** The calculation step of both scripts, continued *)

Lemma kernel_call_Ok {A B} (values : list A) w (kernel : list A -> B) :
  (w <= int64_max)%Z -> kernel_call values w kernel = Ok (kernel values).
Proof.
  intros Hw. unfold kernel_call.
  destruct (Z.ltb_spec int64_max w); [lia|]. by rewrite andb_false_r.
Qed.

Lemma kernel_call_overflow {A B} (values : list A) w (kernel : list A -> B) :
  values <> [] -> (int64_max < w)%Z ->
  kernel_call values w kernel
  = Raise (OverflowError "Python int too large to convert to C long").
Proof.
  intros Hne Hw. unfold kernel_call.
  destruct (Z.ltb_spec int64_max w); [|lia]. by destruct values.
Qed.

Lemma rolling_mean_Float64 v w :
  (0 <= w <= int64_max)%Z -> rolling_mean (Float64 v) w = Ok (Float64 (roll_mean v w w)).
Proof.
  intros Hw. unfold rolling_mean, rolling, mean.
  destruct (Z.ltb_spec w 0); [lia|]. simpl. by rewrite kernel_call_Ok by lia.
Qed.

Lemma rolling_mean_Double v w :
  (0 <= w <= int64_max)%Z ->
  rolling_mean (Double v) w = Ok (Double (f64.roll_mean v w w)).
Proof.
  intros Hw. unfold rolling_mean, rolling, mean.
  destruct (Z.ltb_spec w 0); [lia|]. simpl. by rewrite kernel_call_Ok by lia.
Qed.

Lemma rolling_mean_overflow close w :
  is_float close = true -> column_length close <> 0%nat -> (int64_max < w)%Z ->
  rolling_mean close w
  = Raise (OverflowError "Python int too large to convert to C long").
Proof.
  intros Hfl Hlen Hw. unfold rolling_mean, rolling, mean.
  destruct (Z.ltb_spec w 0); [unfold int64_max in Hw; lia|]. simpl.
  destruct close as [v|v|v|v]; try done; simpl in Hlen;
    rewrite kernel_call_overflow; try done; by destruct v.
Qed.

Lemma rolling_mean_negative close w :
  (w < 0)%Z ->
  rolling_mean close w = Raise (ValueError "window must be an integer 0 or greater").
Proof.
  intros Hw. unfold rolling_mean, rolling.
  destruct (Z.ltb_spec w 0); [done|lia].
Qed.



(** ** The binary64 kernel: rows, counts *)

Example f64_roll_mean_three_days :
  f64.roll_mean [2; 4; 6]%float 2 2 = [nan; 3; 5]%float.
Proof. reflexivity. Qed.

Example f64_roll_mean_no_days : f64.roll_mean [] 10 10 = [].
Proof. reflexivity. Qed.

Example f64_roll_mean_gap :
  f64.roll_mean [2; nan; 6; 7; 8]%float 2 2 = [nan; nan; nan; 6.5; 7.5]%float.
Proof. reflexivity. Qed.

(** The 3 is rounded away when it is added to 1e17. *)
Example f64_roll_mean_rounded :
  f64.roll_mean [1e17; 3]%float 2 2 = [nan; 5e16]%float.
Proof. reflexivity. Qed.

(** A sliding sum that overflowed stays without a mean. *)
Example f64_roll_mean_overflowed :
  f64.roll_mean [0x1p+1023; 0x1.8p+1023; 1]%float 2 2 = [nan; infinity; nan]%float.
Proof. reflexivity. Qed.

(** Integer columns are averaged as binary64 numbers. *)
Example mean_of_integers :
  rolling_mean (Int64 [2; 4; 7]%Z) 2 = Ok (Double [nan; 3; 5.5]%float).
Proof. reflexivity. Qed.

Section Kernel.

Implicit Types (values : list float) (w minp : Z) (i : nat) (st : f64.state).

Lemma roll_loop_length values minp prev st bounds :
  length (f64.roll_loop values minp prev st bounds) = length bounds.
Proof.
  revert prev st. induction bounds as [|cur rest IH]; intros prev st; simpl; [done|].
  by rewrite IH.
Qed.

Lemma f64_roll_mean_length values w minp :
  length (f64.roll_mean values w minp) = length values.
Proof.
  unfold f64.roll_mean. by rewrite roll_loop_length, length_fmap, length_seq.
Qed.

Lemma roll_loop_lookup values w minp n k j :
  j < n ->
  f64.roll_loop values minp
    (match k with O => None | S k' => Some (row_bounds values w k') end)
    (match k with O => f64.setup values 0 | S k' => state_at values w k' end)
    (row_bounds values w <$> seq k n) !! j
  = Some (f64.calc_mean minp (state_at values w (k + j))).
Proof.
  revert k j. induction n as [|n IH]; intros k j Hj; [lia|].
  simpl. destruct j as [|j].
  - simpl. rewrite Nat.add_0_r. by destruct k.
  - simpl. replace (k + S j) with (S k + j) by lia.
    rewrite <- (IH (S k) j) by lia. simpl. by destruct k.
Qed.

Lemma f64_roll_mean_lookup values w minp i :
  i < length values ->
  f64.roll_mean values w minp !! i = Some (f64.calc_mean minp (state_at values w i)).
Proof.
  intros Hi. unfold f64.roll_mean.
  exact (roll_loop_lookup values w minp (length values) 0 i Hi).
Qed.

Lemma count_app p (l1 l2 : list float) : count p (l1 ++ l2) = (count p l1 + count p l2)%Z.
Proof. induction l1 as [|x l1 IH]; simpl; [done|]. rewrite IH. lia. Qed.

Lemma count_bounds p (l : list float) : (0 <= count p l <= Z.of_nat (length l))%Z.
Proof. induction l as [|x l IH]; simpl; [lia|]. destruct (p x); lia. Qed.

Lemma count_lt p (l : list float) x :
  x ∈ l -> p x = false -> (count p l < Z.of_nat (length l))%Z.
Proof.
  intros Hin Hp. induction l as [|y l IH]; [by apply elem_of_nil in Hin|].
  apply elem_of_cons in Hin as [<-|Hin]; simpl.
  - rewrite Hp. pose proof (count_bounds p l). lia.
  - specialize (IH Hin). destruct (p y); lia.
Qed.

Lemma slice_app {A} (l : list A) (a b c : Z) :
  (0 <= a <= b)%Z -> (b <= c)%Z -> slice l a c = slice l a b ++ slice l b c.
Proof.
  intros Hab Hbc. unfold slice.
  replace (Z.to_nat c - Z.to_nat a) with ((Z.to_nat b - Z.to_nat a) + (Z.to_nat c - Z.to_nat b))
    by lia.
  rewrite <- take_take_drop. f_equal. f_equal.
  rewrite drop_drop. f_equal. lia.
Qed.

Lemma slice_length_le {A} (l : list A) (a b : Z) :
  length (slice l a b) <= Z.to_nat b - Z.to_nat a.
Proof. unfold slice. rewrite length_take. lia. Qed.

Lemma fold_add_counts st (l : list float) :
  f64.nobs (foldl (fun st val => f64.add_mean val st) st l)
  = (f64.nobs st + count f64.notnan l)%Z /\
  f64.neg_ct (foldl (fun st val => f64.add_mean val st) st l)
  = (f64.neg_ct st + count negative l)%Z.
Proof.
  revert st. induction l as [|x l IH]; intros st; simpl; [lia|].
  destruct (IH (f64.add_mean x st)) as [-> ->].
  unfold f64.add_mean, negative. destruct (f64.notnan x); simpl; [|lia].
  destruct (f64.signbit x); simpl; lia.
Qed.

Lemma fold_remove_counts st (l : list float) :
  f64.nobs (foldl (fun st val => f64.remove_mean val st) st l)
  = (f64.nobs st - count f64.notnan l)%Z /\
  f64.neg_ct (foldl (fun st val => f64.remove_mean val st) st l)
  = (f64.neg_ct st - count negative l)%Z.
Proof.
  revert st. induction l as [|x l IH]; intros st; simpl; [lia|].
  destruct (IH (f64.remove_mean x st)) as [-> ->].
  unfold f64.remove_mean, negative. destruct (f64.notnan x); simpl; [|lia].
  destruct (f64.signbit x); simpl; lia.
Qed.

(** The bounds of consecutive rows. *)
Lemma row_bounds_pos {A} (l : list A) w i :
  (0 < w)%Z -> i < length l ->
  row_bounds l w i = (Z.max (Z.of_nat i + 1 - w) 0, (Z.of_nat i + 1)%Z).
Proof. intros. unfold row_bounds. by apply get_window_bounds_pos. Qed.

Lemma row_bounds_zero {A} (l : list A) i :
  i < length l -> row_bounds l 0 i = (Z.of_nat i, Z.of_nat i).
Proof. intros. unfold row_bounds. by apply get_window_bounds_zero. Qed.

Lemma row_bounds_mono {A} (l : list A) w k :
  (0 <= w)%Z -> S k < length l ->
  (0 <= (row_bounds l w k).1 <= (row_bounds l w (S k)).1)%Z /\
  ((row_bounds l w k).1 <= (row_bounds l w k).2)%Z /\
  ((row_bounds l w k).2 <= (row_bounds l w (S k)).2)%Z /\
  ((row_bounds l w (S k)).1 <= (row_bounds l w (S k)).2)%Z.
Proof.
  intros Hw Hk. destruct (decide (w = 0%Z)) as [->|Hne].
  - rewrite !row_bounds_zero by lia. simpl. lia.
  - rewrite !row_bounds_pos by lia. simpl. lia.
Qed.

(** The counters of the kernel count the window: [nobs] the cells
    that are not NaN, [neg_ct] those of them with the sign bit set. *)
Lemma state_at_counts values w i :
  (0 <= w)%Z -> i < length values ->
  f64.nobs (state_at values w i)
  = count f64.notnan (slice values (row_bounds values w i).1 (row_bounds values w i).2) /\
  f64.neg_ct (state_at values w i)
  = count negative (slice values (row_bounds values w i).1 (row_bounds values w i).2).
Proof.
  intros Hw. induction i as [|k IH]; intros Hi.
  - cbn [state_at f64.row_step].
    destruct (fold_add_counts (f64.setup values (row_bounds values w 0).1)
      (slice values (row_bounds values w 0).1 (row_bounds values w 0).2)) as [-> ->].
    simpl. lia.
  - destruct (IH ltac:(lia)) as [IHn IHg].
    destruct (row_bounds_mono values w k Hw Hi) as (Hs & He0 & He & Hse).
    cbn [state_at]. destruct (row_bounds values w k) as [s0 e0] eqn:Hb0.
    destruct (row_bounds values w (S k)) as [s e] eqn:Hb. cbn [fst snd] in *.
    unfold f64.row_step. cbn [fst snd].
    destruct (Z.leb_spec e0 s) as [Hfresh|Hslide].
    + destruct (fold_add_counts (f64.setup values s) (slice values s e)) as [-> ->].
      simpl. lia.
    + match goal with |- context [foldl _ (foldl ?f ?st0 ?l0) ?l1] =>
        destruct (fold_add_counts (foldl f st0 l0) l1) as [-> ->];
        destruct (fold_remove_counts st0 l0) as [-> ->]
      end.
      rewrite IHn, IHg.
      rewrite (slice_app values s0 s e0), (slice_app values s e0 e) by lia.
      rewrite !count_app. lia.
Qed.

End Kernel.

(** ** The binary64 kernel: runs without rounding *)

Section Exact.

Implicit Types (values : list float) (closes : list Q) (w : Z) (i : nat) (st : f64.state).






(** *** Facts about binary64 values *)








End Exact.

Section ExactRun.

Implicit Types (values : list float) (closes : list Q) (w : Z) (i : nat) (st : f64.state).





















End ExactRun.

(** ** The calculation step on a float column *)

Section Columns.

Implicit Types (close : Column) (w : Z) (i : nat).

Lemma rolling_mean_rolled close w :
  is_float close = true -> (0 <= w <= int64_max)%Z ->
  rolling_mean close w = Ok (rolled close w).
Proof.
  intros Hfl Hw. destruct close as [v|v|v|v]; try done; simpl.
  - by apply rolling_mean_Float64.
  - by apply rolling_mean_Double.
Qed.

Lemma rolled_is_float close w : is_float close = true -> is_float (rolled close w) = true.
Proof. by destruct close. Qed.

Lemma rolled_length close w : column_length (rolled close w) = column_length close.
Proof.
  destruct close as [v|v|v|v]; simpl; [|by rewrite f64_roll_mean_length|done..].
  by rewrite roll_mean_length.
Qed.

Lemma f64_roll_mean_warmup (values : list float) w i :
  (0 < w)%Z -> i < length values -> (Z.of_nat i < w - 1)%Z ->
  f64.roll_mean values w w !! i = Some nan.
Proof.
  intros Hw Hi Hlt. rewrite f64_roll_mean_lookup by done. f_equal.
  destruct (state_at_counts values w i ltac:(lia) Hi) as [Hn _].
  rewrite row_bounds_pos in Hn by done. cbn [fst snd] in Hn.
  pose proof (count_bounds f64.notnan
    (slice values (Z.max (Z.of_nat i + 1 - w) 0) (Z.of_nat i + 1))) as Hb.
  pose proof (slice_length_le values (Z.max (Z.of_nat i + 1 - w) 0) (Z.of_nat i + 1)) as Hl.
  unfold f64.calc_mean.
  destruct (Z.leb_spec w (f64.nobs (state_at values w i))); [lia|done].
Qed.

Lemma f64_roll_mean_zero (values : list float) i :
  i < length values -> f64.roll_mean values 0 0 !! i = Some nan.
Proof.
  intros Hi. rewrite f64_roll_mean_lookup by done. f_equal.
  destruct (state_at_counts values 0 i ltac:(lia) Hi) as [Hn _].
  rewrite row_bounds_zero in Hn by done. cbn [fst snd] in Hn.
  pose proof (count_bounds f64.notnan (slice values (Z.of_nat i) (Z.of_nat i))) as Hb.
  pose proof (slice_length_le values (Z.of_nat i) (Z.of_nat i)) as Hl.
  unfold f64.calc_mean.
  destruct (Z.ltb_spec 0 (f64.nobs (state_at values 0 i))); [lia|].
  by rewrite andb_false_r.
Qed.

Lemma roll_mean_at_zero (values : list cell) i :
  i < length values -> roll_mean_at values 0 0 i = NaN.
Proof.
  intros Hi. unfold roll_mean_at. rewrite get_window_bounds_zero by done.
  unfold slice. rewrite Nat.sub_diag. simpl. done.
Qed.

(** Before a full window is available the entry is the missing
    marker, in either reading of the column. *)
Lemma rolled_warmup close w i :
  is_float close = true ->
  (0 < w)%Z -> i < column_length close -> (Z.of_nat i < w - 1)%Z ->
  missing_at (rolled close w) i.
Proof.
  intros Hfl Hw Hi Hlt. destruct close as [v|v|v|v]; try done; simpl in *.
  - rewrite roll_mean_lookup by done. f_equal. by apply roll_mean_at_warmup.
  - by apply f64_roll_mean_warmup.
Qed.

(** A window of no rows has no mean. *)
Lemma rolled_zero close i :
  is_float close = true -> i < column_length close -> missing_at (rolled close 0) i.
Proof.
  intros Hfl Hi. destruct close as [v|v|v|v]; try done; simpl in *.
  - rewrite roll_mean_lookup by done. f_equal. by apply roll_mean_at_zero.
  - by apply f64_roll_mean_zero.
Qed.

Lemma calculate_sma_rolled σ data df close w :
  frames σ !! data = Some df ->
  getitem df "Close" = Ok close ->
  is_float close = true ->
  (0 <= w <= int64_max)%Z ->
  leaves apple_stock_analysis.calculate_sma data w σ (setitem df (sma_name w) (rolled close w))
  /\ leaves apple_stock_data.calculate_sma data w σ
            (setitem df (sma_name w) (rolled close w)).
Proof.
  intros Hl Hc Hfl Hw. unfold leaves.
  rewrite (analysis_calculate_sma_run _ _ df), (data_calculate_sma_run _ _ df) by done.
  unfold calculated. rewrite Hc, rolling_mean_rolled by done.
  split; eexists; (split; [done|]); simpl; apply lookup_insert_eq.
Qed.

End Columns.

(** ** The moving-average column *)




(** C2, as stated: a positive window the kernels do not take gives no
    moving-average column at all.  With window 2^63 both scripts fail
    in the library on the three-day frame, which keeps its columns. *)
Lemma warmup_window_too_wide :
  (0 < too_wide)%Z /\ (Z.of_nat 0 < too_wide - 1)%Z /\
  (exists msg,
     apple_stock_analysis.calculate_sma 0 too_wide sample_world
     = (Raise (OverflowError msg),
        {| frames := {[ 0%nat := sample_frame ]};
           stdout := [[Text "Calculating "; Int too_wide; Text "-day SMA..."]];
           files := ∅ |}) /\
     apple_stock_data.calculate_sma 0 too_wide sample_world
     = (Raise (OverflowError msg), sample_world)) /\
  assoc (sma_name too_wide) (columns sample_frame) = None.
Proof.
  split_and!; [done|done| |vm_compute; reflexivity].
  eexists. split; vm_compute; reflexivity.
Qed.

(** C2, amended. For a window [0 < w < 2^63], every entry of the
    moving-average column at a position [i < w - 1] is the missing
    marker, in both scripts and in either reading of the close
    column. *)
Theorem calculate_sma_warmup_nan σ data df close w i :
  frames σ !! data = Some df ->
  getitem df "Close" = Ok close -> is_float close = true ->
  (0 < w <= int64_max)%Z -> (Z.of_nat i < w - 1)%Z -> i < column_length close ->
  exists df' sma,
    leaves apple_stock_analysis.calculate_sma data w σ df' /\
    leaves apple_stock_data.calculate_sma data w σ df' /\
    getitem df' (sma_name w) = Ok sma /\
    missing_at sma i.
Proof.
  intros Hl Hc Hfl Hw Hlt Hi.
  destruct (calculate_sma_rolled σ data df close w) as [Ha Hd]; [done|done|done|lia|].
  eexists _, _. split_and!; [done|done|apply getitem_setitem|].
  apply rolled_warmup; [done|lia|done..].
Qed.

Lemma calculate_sma_warmup_nan_witness :
  exists df' sma,
    leaves apple_stock_analysis.calculate_sma 0 3 double_world df' /\
    leaves apple_stock_data.calculate_sma 0 3 double_world df' /\
    getitem df' (sma_name 3) = Ok sma /\
    missing_at sma 1.
Proof.
  apply (calculate_sma_warmup_nan double_world 0 double_frame
           (Double [2; 4; 6; 9]%float) 3 1);
    [reflexivity | reflexivity | reflexivity | unfold int64_max; lia | lia | simpl; lia].
Defined.

(** C3, as stated: with window 2^63 no column of any length is
    produced; both scripts fail in the library on the two-day frame. *)
Lemma length_window_too_wide :
  (0 < too_wide)%Z /\
  (exists msg,
     apple_stock_analysis.calculate_sma 0 too_wide large_world
     = (Raise (OverflowError msg),
        {| frames := {[ 0%nat := large_frame ]};
           stdout := [[Text "Calculating "; Int too_wide; Text "-day SMA..."]];
           files := ∅ |}) /\
     apple_stock_data.calculate_sma 0 too_wide large_world
     = (Raise (OverflowError msg), large_world)) /\
  column_names large_frame = ["Close"].
Proof.
  split_and!; [done| |vm_compute; reflexivity].
  eexists. split; vm_compute; reflexivity.
Qed.

(** C3, amended. For a window [0 < w < 2^63], the moving-average
    column has as many entries as the close column, and the row labels
    of the frame are the ones it had: the column is aligned with the
    input. *)
Theorem calculate_sma_same_length σ data df close w :
  frames σ !! data = Some df ->
  getitem df "Close" = Ok close -> is_float close = true ->
  (0 < w <= int64_max)%Z ->
  exists df' sma,
    leaves apple_stock_analysis.calculate_sma data w σ df' /\
    leaves apple_stock_data.calculate_sma data w σ df' /\
    getitem df' (sma_name w) = Ok sma /\
    is_float sma = true /\
    column_length sma = column_length close /\
    index df' = index df.
Proof.
  intros Hl Hc Hfl Hw.
  destruct (calculate_sma_rolled σ data df close w) as [Ha Hd]; [done|done|done|lia|].
  eexists _, _. split_and!; [done|done|apply getitem_setitem| | |done].
  - by apply rolled_is_float.
  - apply rolled_length.
Qed.

Lemma calculate_sma_same_length_witness :
  exists df' sma,
    leaves apple_stock_analysis.calculate_sma 0 2 sample_world df' /\
    leaves apple_stock_data.calculate_sma 0 2 sample_world df' /\
    getitem df' (sma_name 2) = Ok sma /\
    is_float sma = true /\
    column_length sma = column_length (Float64 (numeric [2; 4; 6]%Q)) /\
    index df' = index sample_frame.
Proof.
  apply (calculate_sma_same_length sample_world 0 sample_frame
           (Float64 (numeric [2; 4; 6]%Q)) 2);
    [reflexivity | reflexivity | reflexivity | unfold int64_max; lia].
Defined.

(** C4, as stated: a window longer than the close column can be an
    error.  Window 2^63 is longer than the four-day column, and both
    scripts fail in the library instead of returning a column of
    missing markers. *)
Lemma short_input_window_too_wide :
  (Z.of_nat (column_length (Double [2; 4; 6; 9]%float)) < too_wide)%Z /\
  (exists msg,
     apple_stock_analysis.calculate_sma 0 too_wide double_world
     = (Raise (OverflowError msg),
        {| frames := {[ 0%nat := double_frame ]};
           stdout := [[Text "Calculating "; Int too_wide; Text "-day SMA..."]];
           files := ∅ |}) /\
     apple_stock_data.calculate_sma 0 too_wide double_world
     = (Raise (OverflowError msg), double_world)) /\
  ~ (exists df', leaves apple_stock_analysis.calculate_sma 0 too_wide double_world df') /\
  ~ (exists df', leaves apple_stock_data.calculate_sma 0 too_wide double_world df').
Proof.
  assert (exists msg,
            apple_stock_analysis.calculate_sma 0 too_wide double_world
            = (Raise (OverflowError msg),
               {| frames := {[ 0%nat := double_frame ]};
                  stdout := [[Text "Calculating "; Int too_wide; Text "-day SMA..."]];
                  files := ∅ |}) /\
            apple_stock_data.calculate_sma 0 too_wide double_world
            = (Raise (OverflowError msg), double_world)) as (msg & Ha & Hd)
    by (eexists; split; vm_compute; reflexivity).
  split_and!; [done|by exists msg| |].
  - intros (df' & σ' & Hrun & _). rewrite Ha in Hrun. discriminate.
  - intros (df' & σ' & Hrun & _). rewrite Hd in Hrun. discriminate.
Qed.

(** C4, amended. A window longer than the close column, and below
    2^63, is no error: the moving-average column has the length of
    the close column and holds the missing marker everywhere; for an
    empty column it is empty. *)
Theorem calculate_sma_short_input σ data df close w :
  frames σ !! data = Some df ->
  getitem df "Close" = Ok close -> is_float close = true ->
  (Z.of_nat (column_length close) < w <= int64_max)%Z ->
  exists df' sma,
    leaves apple_stock_analysis.calculate_sma data w σ df' /\
    leaves apple_stock_data.calculate_sma data w σ df' /\
    getitem df' (sma_name w) = Ok sma /\
    column_length sma = column_length close /\
    (forall i, i < column_length close -> missing_at sma i) /\
    (column_length close = 0%nat -> sma = Float64 [] \/ sma = Double []).
Proof.
  intros Hl Hc Hfl Hw.
  destruct (calculate_sma_rolled σ data df close w) as [Ha Hd]; [done|done|done|lia|].
  eexists _, _. split_and!; [done|done|apply getitem_setitem| | |].
  - apply rolled_length.
  - intros i Hi. apply rolled_warmup; [done|lia|done|lia].
  - intros Hz. destruct close as [v|v|v|v]; try done; simpl in Hz;
      apply length_zero_iff_nil in Hz; subst v; auto.
Qed.

Lemma calculate_sma_short_input_witness :
  exists df' sma,
    leaves apple_stock_analysis.calculate_sma 0 10 double_world df' /\
    leaves apple_stock_data.calculate_sma 0 10 double_world df' /\
    getitem df' (sma_name 10) = Ok sma /\
    column_length sma = column_length (Double [2; 4; 6; 9]%float) /\
    (forall i, i < column_length (Double [2; 4; 6; 9]%float) -> missing_at sma i) /\
    (column_length (Double [2; 4; 6; 9]%float) = 0%nat
     -> sma = Float64 [] \/ sma = Double []).
Proof.
  apply (calculate_sma_short_input double_world 0 double_frame
           (Double [2; 4; 6; 9]%float) 10);
    [reflexivity | reflexivity | reflexivity | unfold int64_max; simpl; lia].
Defined.

(** C9. The calculation steps of the two scripts agree: from the same
    state and for the same window they return the same result and
    leave the same object store and files, so the same moving-average
    column (length, missing positions and values).  They differ only
    in the progress message of [apple_stock_analysis.py]. *)
Theorem calculate_sma_scripts_agree σ data w :
  (apple_stock_analysis.calculate_sma data w σ).1
  = (apple_stock_data.calculate_sma data w σ).1 /\
  frames (apple_stock_analysis.calculate_sma data w σ).2
  = frames (apple_stock_data.calculate_sma data w σ).2 /\
  files (apple_stock_analysis.calculate_sma data w σ).2
  = files (apple_stock_data.calculate_sma data w σ).2 /\
  (forall df', leaves apple_stock_analysis.calculate_sma data w σ df'
               <-> leaves apple_stock_data.calculate_sma data w σ df').
Proof.
  destruct (frames σ !! data) as [df|] eqn:Hl.
  - unfold leaves.
    rewrite (analysis_calculate_sma_run _ _ df), (data_calculate_sma_run _ _ df) by done.
    unfold calculated.
    destruct (getitem df "Close") as [close|]; simpl.
    + destruct (rolling_mean close w) as [sma|]; simpl.
      * split_and!; [done..|]. intros df'.
        split; intros (σ' & Hrun & Hdf); simplify_eq/=; eexists; split; done.
      * split_and!; [done..|]. intros df'. split; intros (σ' & Hrun & _); done.
    + split_and!; [done..|]. intros df'. split; intros (σ' & Hrun & _); done.
  - unfold leaves, apple_stock_analysis.calculate_sma, apple_stock_data.calculate_sma,
      bind, print, load. simpl. rewrite Hl. simpl.
    split_and!; [done..|]. intros df'. split; intros (σ' & Hrun & _); done.
Qed.

(** ** Window sizes that are not positive *)

(** C5, at window 0: the calculation step reports nothing; it returns
    and adds the column [0_SMA], all missing markers. *)
Lemma zero_window_not_rejected :
  apple_stock_analysis.calculate_sma 0 0 sample_world
  = (Ok 0%nat,
     {| frames := {[ 0%nat := setitem sample_frame "0_SMA" (Float64 [NaN; NaN; NaN]) ]};
        stdout := [[Text "Calculating "; Int 0; Text "-day SMA..."]];
        files := ∅ |})
  /\ apple_stock_data.calculate_sma 0 0 sample_world
     = (Ok 0%nat,
        {| frames := {[ 0%nat := setitem sample_frame "0_SMA" (Float64 [NaN; NaN; NaN]) ]};
           stdout := [];
           files := ∅ |})
  /\ ~ (exists e σ', apple_stock_data.calculate_sma 0 0 sample_world = (Raise e, σ')).
Proof.
  assert (apple_stock_data.calculate_sma 0 0 sample_world
          = (Ok 0%nat,
             {| frames := {[ 0%nat := setitem sample_frame "0_SMA"
                                        (Float64 [NaN; NaN; NaN]) ]};
                stdout := [];
                files := ∅ |})) as Hd by (vm_compute; reflexivity).
  split_and!; [vm_compute; reflexivity|done|].
  intros (e & σ' & Hr). rewrite Hd in Hr. discriminate.
Qed.

(** C5, amended. Only a negative window is refused, and by the
    rolling-window constructor: in both scripts the calculation step
    then raises [ValueError] before anything is computed and the frame
    gets no column.  Window 0 is accepted on every float column: both
    scripts return and add the column [0_SMA], which has the length of
    the close column and holds the missing marker in every row. *)
Theorem calculate_sma_window_not_positive σ data df close w :
  frames σ !! data = Some df ->
  getitem df "Close" = Ok close ->
  (w <= 0)%Z ->
  ((w < 0)%Z ->
   exists σa,
     apple_stock_analysis.calculate_sma data w σ
     = (Raise (ValueError "window must be an integer 0 or greater"), σa) /\
     apple_stock_data.calculate_sma data w σ
     = (Raise (ValueError "window must be an integer 0 or greater"), σ) /\
     frames σa = frames σ /\ files σa = files σ) /\
  (w = 0%Z -> is_float close = true ->
   exists sma,
     leaves apple_stock_analysis.calculate_sma data w σ (setitem df "0_SMA" sma) /\
     leaves apple_stock_data.calculate_sma data w σ (setitem df "0_SMA" sma) /\
     is_float sma = true /\
     column_length sma = column_length close /\
     forall i, i < column_length close -> missing_at sma i).
Proof.
  intros Hl Hc Hw. split.
  - intros Hneg.
    rewrite (analysis_calculate_sma_run _ _ df), (data_calculate_sma_run _ _ df) by done.
    unfold calculated. rewrite Hc, rolling_mean_negative by done.
    eexists. split_and!; done.
  - intros -> Hfl.
    destruct (calculate_sma_rolled σ data df close 0) as [Ha Hd];
      [done|done|done|unfold int64_max; lia|].
    exists (rolled close 0). split_and!; [done|done| | |].
    + by apply rolled_is_float.
    + apply rolled_length.
    + intros i Hi. by apply rolled_zero.
Qed.

Lemma calculate_sma_window_not_positive_witness :
  (exists σa,
     apple_stock_analysis.calculate_sma 0 (-1) sample_world
     = (Raise (ValueError "window must be an integer 0 or greater"), σa) /\
     apple_stock_data.calculate_sma 0 (-1) sample_world
     = (Raise (ValueError "window must be an integer 0 or greater"), sample_world) /\
     frames σa = frames sample_world /\ files σa = files sample_world) /\
  (exists sma,
     leaves apple_stock_analysis.calculate_sma 0 0 double_world
            (setitem double_frame "0_SMA" sma) /\
     leaves apple_stock_data.calculate_sma 0 0 double_world
            (setitem double_frame "0_SMA" sma) /\
     is_float sma = true /\
     column_length sma = column_length (Double [2; 4; 6; 9]%float) /\
     forall i, i < column_length (Double [2; 4; 6; 9]%float) -> missing_at sma i).
Proof.
  split.
  - apply (calculate_sma_window_not_positive sample_world 0 sample_frame
             (Float64 (numeric [2; 4; 6]%Q)) (-1));
      [reflexivity | reflexivity | lia | lia].
  - apply (calculate_sma_window_not_positive double_world 0 double_frame
             (Double [2; 4; 6; 9]%float) 0);
      [reflexivity | reflexivity | lia | reflexivity | reflexivity].
Defined.

(** ** What the calculation step leaves alone *)

Lemma setitem_keeps df w sma :
  index (setitem df (sma_name w) sma) = index df /\
  (forall name, name <> sma_name w ->
                assoc name (columns (setitem df (sma_name w) sma))
                = assoc name (columns df)) /\
  Forall (fun name => assoc name (columns (setitem df (sma_name w) sma))
                      = assoc name (columns df))
         ["Open"; "High"; "Low"; "Close"] /\
  (column_names (setitem df (sma_name w) sma) = column_names df
   \/ column_names (setitem df (sma_name w) sma) = column_names df ++ [sma_name w]).
Proof.
  assert (forall name, name <> sma_name w ->
            assoc name (columns (setitem df (sma_name w) sma))
            = assoc name (columns df)) as Hother.
  { intros name Hne. simpl. by apply assoc_assign_ne. }
  split_and!; [done|done| |].
  - repeat constructor; apply Hother; intros Heq;
      eapply (sma_name_not_price w); try (symmetry; exact Heq); (apply list_elem_of_In; simpl; tauto).
  - unfold column_names. simpl. rewrite assign_names.
    destruct (mem (sma_name w) (columns df)); auto.
Qed.

Lemma calculated_keeps σ σp data df w :
  frames σ !! data = Some df -> frames σp = frames σ -> files σp = files σ ->
  exists r σ' df',
    calculated σp data df w = (r, σ') /\
    frames σ' !! data = Some df' /\
    index df' = index df /\
    (forall name, name <> sma_name w ->
                  assoc name (columns df') = assoc name (columns df)) /\
    Forall (fun name => assoc name (columns df') = assoc name (columns df))
           ["Open"; "High"; "Low"; "Close"] /\
    (column_names df' = column_names df
     \/ column_names df' = column_names df ++ [sma_name w]) /\
    (forall l, l <> data -> frames σ' !! l = frames σ !! l) /\
    files σ' = files σ.
Proof.
  intros Hl Hfr Hfi. unfold calculated.
  assert (Forall (fun name : string => assoc name (columns df) = assoc name (columns df))
                 ["Open"; "High"; "Low"; "Close"]) as Hsame
    by (repeat constructor).
  destruct (getitem df "Close") as [close|e].
  - destruct (rolling_mean close w) as [sma|e].
    + destruct (setitem_keeps df w sma) as (Hix & Hother & Hprice & Hnames).
      eexists _, _, _. split; [done|]. simpl.
      split_and!; [apply lookup_insert_eq|done..| |done].
      intros l Hne. rewrite lookup_insert_ne by done. by rewrite Hfr.
    + eexists _, _, df. split; [done|]. rewrite Hfr.
      split_and!; auto.
  - eexists _, _, df. split; [done|]. rewrite Hfr.
    split_and!; auto.
Qed.

(** C6. The calculation step leaves the input alone: whatever the
    positive window, after it has run the frame behind [data] has its
    row labels and every column it had, [Open], [High], [Low] and
    [Close] among them, with their values; the only column written is
    the one named [f'{window}_SMA'].  This holds in both scripts. *)
Theorem calculate_sma_keeps_input σ data df w :
  frames σ !! data = Some df ->
  (0 < w)%Z ->
  keeps_frame apple_stock_analysis.calculate_sma data w σ df /\
  keeps_frame apple_stock_data.calculate_sma data w σ df.
Proof.
  intros Hl Hw. unfold keeps_frame.
  rewrite (analysis_calculate_sma_run _ _ df), (data_calculate_sma_run _ _ df) by done.
  split; by apply calculated_keeps.
Qed.

Lemma calculate_sma_keeps_input_witness :
  keeps_frame apple_stock_analysis.calculate_sma 0 2 sample_world sample_frame /\
  keeps_frame apple_stock_data.calculate_sma 0 2 sample_world sample_frame.
Proof.
  apply (calculate_sma_keeps_input sample_world 0 sample_frame 2);
    [reflexivity | lia].
Defined.

(** ** The fetch step *)

Lemma analysis_fetch_Ok E ticker days_back σ df :
  yf_download E ticker (now E - days_back)%Z (now E) = Downloaded df ->
  empty df = false ->
  apple_stock_analysis.fetch_stock_data E ticker days_back σ
  = (Ok (fresh (dom (frames σ))),
     {| frames := <[fresh (dom (frames σ)) := df]> (frames σ);
        stdout := (stdout σ
                   ++ [[Text "Fetching "; Int days_back;
                        Text " days of historical data for "; Text ticker; Text "..."]])
                   ++ [[Text "Data fetched successfully!"]];
        files := files σ |}).
Proof.
  intros Hd He.
  unfold apple_stock_analysis.fetch_stock_data, download, bind, print, alloc, load, ret.
  simpl. rewrite Hd. simpl. rewrite lookup_insert_eq, He. done.
Qed.

Lemma analysis_fetch_fails E ticker days_back σ :
  fetch_fails E ticker (now E - days_back)%Z (now E) = true ->
  exists e σ',
    apple_stock_analysis.fetch_stock_data E ticker days_back σ = (Raise e, σ')
    /\ is_Exception e = true /\ files σ' = files σ.
Proof.
  unfold fetch_fails. intros Hf.
  unfold apple_stock_analysis.fetch_stock_data, download, bind, print, alloc, load,
    raise, ret.
  simpl. destruct (yf_download E ticker (now E - days_back)%Z (now E)) as [df|msg]; simpl.
  - rewrite lookup_insert_eq, Hf. by eexists _, _.
  - by eexists _, _.
Qed.

Lemma data_fetch_Ok E ticker start_date end_date σ df :
  yf_download E ticker start_date end_date = Downloaded df ->
  empty df = false ->
  apple_stock_data.fetch_stock_data E ticker start_date end_date σ
  = (Ok (fresh (dom (frames σ))),
     {| frames := <[fresh (dom (frames σ)) := df]> (frames σ);
        stdout := stdout σ;
        files := files σ |}).
Proof.
  intros Hd He.
  unfold apple_stock_data.fetch_stock_data, try_except, download, bind, alloc, load, ret.
  rewrite Hd. simpl. rewrite lookup_insert_eq, He. done.
Qed.

Lemma data_fetch_fails E ticker start_date end_date σ :
  fetch_fails E ticker start_date end_date = true ->
  exists σ',
    apple_stock_data.fetch_stock_data E ticker start_date end_date σ
    = (Raise (SystemExit 1), σ')
    /\ files σ' = files σ.
Proof.
  unfold fetch_fails. intros Hf.
  unfold apple_stock_data.fetch_stock_data, try_except, download, bind, print, alloc,
    load, sys_exit, raise, ret.
  destruct (yf_download E ticker start_date end_date) as [df|msg]; simpl.
  - rewrite lookup_insert_eq, Hf. simpl. by eexists.
  - by eexists.
Qed.

(** ** The save step *)

Lemma process_and_save_missing E data filename σ df e :
  frames σ !! data = Some df ->
  getitems df ["Open"; "High"; "Low"; "Close"; "10_SMA"] = Raise e ->
  apple_stock_analysis.process_and_save_data E data filename σ = (Raise e, σ).
Proof.
  intros Hl Hg.
  unfold apple_stock_analysis.process_and_save_data, getitems_ref, bind, load, lift.
  by rewrite Hl, Hg.
Qed.


(** ** The chart step writes one file *)



(** ** The CSV file of a whole run *)

Lemma getitems_all df names cs :
  Forall2 (fun n c => assoc n (columns df) = Some c) names cs ->
  getitems df names = Ok {| index := index df; columns := zip names cs |}.
Proof.
  intros H. unfold getitems.
  assert (not_found names (columns df) = []
          /\ select names (columns df) = zip names cs) as [-> ->]; [|done].
  induction H as [|n c names cs Hn H IH]; [done|].
  simpl. unfold mem. rewrite Hn. by destruct IH as [-> ->].
Qed.

Lemma select_price_columns ix cols o h l c s :
  assoc "Open" cols = Some o -> assoc "High" cols = Some h ->
  assoc "Low" cols = Some l -> assoc "Close" cols = Some c ->
  getitems {| index := ix; columns := assign "10_SMA" s cols |}
           ["Open"; "High"; "Low"; "Close"; "10_SMA"]
  = Ok {| index := ix;
          columns := [("Open", o); ("High", h); ("Low", l); ("Close", c); ("10_SMA", s)] |}.
Proof.
  intros Ho Hh Hl Hc. unfold getitems. simpl. unfold mem.
  rewrite !assoc_assign_ne, !assoc_assign_eq, Ho, Hh, Hl, Hc by done. reflexivity.
Qed.



(** ** Which exceptions escape *)

Section RaisesOnly.

Context (P : exn -> Prop).

Lemma raises_only_ret {A} (a : A) : raises_only P (ret a).
Proof. intros σ e σ' H. discriminate. Qed.

Lemma raises_only_bind {A B} (m : M A) (k : A -> M B) :
  raises_only P m -> (forall a, raises_only P (k a)) -> raises_only P (bind m k).
Proof.
  intros Hm Hk σ e σ' H. unfold bind in H.
  destruct (m σ) as [[a|e0] σ0] eqn:Hrun.
  - by eapply Hk.
  - injection H as <- <-. by eapply Hm.
Qed.

Lemma raises_only_raise {A} e : P e -> raises_only P (@raise A e).
Proof. intros He σ e' σ' H. by injection H as <- <-. Qed.

Lemma raises_only_lift {A} (r : result A) : fails_only P r -> raises_only P (lift r).
Proof. intros Hr σ e σ' H. injection H as -> <-. by apply Hr. Qed.

Lemma raises_only_print msg : raises_only P (print msg).
Proof. intros σ e σ' H. discriminate. Qed.

Lemma raises_only_alloc df : raises_only P (alloc df).
Proof. intros σ e σ' H. discriminate. Qed.

Lemma raises_only_store l df : raises_only P (store l df).
Proof. intros σ e σ' H. discriminate. Qed.

Hypothesis library : forall e, caught e -> P e.

Lemma raises_only_load l : raises_only P (load l).
Proof.
  intros σ e σ' H. unfold load in H.
  destruct (frames σ !! l); [discriminate|]. injection H as <- <-. by apply library.
Qed.

Lemma raises_only_write_file E path f : raises_only P (write_file E path f).
Proof.
  intros σ e σ' H. unfold write_file in H.
  destruct (writable E path); [discriminate|]. injection H as <- <-. by apply library.
Qed.

Lemma raises_only_download E ticker s e : raises_only P (download E ticker s e).
Proof.
  unfold download. destruct (yf_download E ticker s e).
  - apply raises_only_alloc.
  - by apply raises_only_raise, library.
Qed.

Lemma fails_only_getitem df name : fails_only P (getitem df name).
Proof.
  intros e H. unfold getitem in H.
  destruct (assoc name (columns df)); [discriminate|]. injection H as <-.
  by apply library.
Qed.

Lemma fails_only_getitems df names : fails_only P (getitems df names).
Proof.
  intros e H. unfold getitems in H.
  destruct (length (not_found names (columns df)) =? 0)%nat; [discriminate|].
  destruct (length (not_found names (columns df)) =? length names)%nat;
    injection H as <-; by apply library.
Qed.

Lemma fails_only_reset_index df : fails_only P (reset_index df).
Proof.
  intros e H. unfold reset_index in H.
  destruct (mem _ (columns df)); [|discriminate]. injection H as <-.
  by apply library.
Qed.

Lemma fails_only_rolling close w : fails_only P (rolling close w).
Proof.
  intros e H. unfold rolling in H.
  destruct (w <? 0)%Z; [|discriminate]. injection H as <-. by apply library.
Qed.

Lemma fails_only_mean r : fails_only P (mean r).
Proof.
  intros e H. unfold mean, kernel_call in H.
  destruct (obj r) as [v|v|v|v];
    try (destruct (_ && _); [|discriminate]); injection H as <-; by apply library.
Qed.

End RaisesOnly.

Ltac raises_only_step :=
  lazymatch goal with
  | |- raises_only _ (bind _ _) => apply raises_only_bind; [|intros ?]
  | |- raises_only _ (ret _) => apply raises_only_ret
  | |- raises_only _ (print _) => apply raises_only_print
  | |- raises_only _ (alloc _) => apply raises_only_alloc
  | |- raises_only _ (store _ _) => apply raises_only_store
  | |- raises_only _ (load _) => apply raises_only_load; [assumption]
  | |- raises_only _ (write_file _ _ _) => apply raises_only_write_file; [assumption]
  | |- raises_only _ (download _ _ _ _) => apply raises_only_download; [assumption]
  | |- raises_only _ (lift _) => apply raises_only_lift
  | |- fails_only _ (getitem _ _) => apply fails_only_getitem; [assumption]
  | |- fails_only _ (getitems _ _) => apply fails_only_getitems; [assumption]
  | |- fails_only _ (reset_index _) => apply fails_only_reset_index; [assumption]
  | |- fails_only _ (rolling _ _) => apply fails_only_rolling; [assumption]
  | |- fails_only _ (mean _) => apply fails_only_mean; [assumption]
  end.

Section Escapes.

Context (P : exn -> Prop) (library : forall e, caught e -> P e) (E : env).

Lemma raises_only_getitems_ref data names : raises_only P (getitems_ref data names).
Proof. unfold getitems_ref. repeat raises_only_step. Qed.

Lemma raises_only_reset_index_inplace data : raises_only P (reset_index_inplace data).
Proof. unfold reset_index_inplace. repeat raises_only_step. Qed.

Lemma raises_only_to_csv data filename : raises_only P (to_csv E data filename).
Proof. unfold to_csv. repeat raises_only_step. Qed.

Lemma raises_only_analysis_fetch ticker days_back :
  raises_only P (apple_stock_analysis.fetch_stock_data E ticker days_back).
Proof.
  unfold apple_stock_analysis.fetch_stock_data. repeat raises_only_step.
  destruct (empty _); repeat raises_only_step.
  by apply raises_only_raise, library.
Qed.

Lemma raises_only_analysis_calculate data w :
  raises_only P (apple_stock_analysis.calculate_sma data w).
Proof. unfold apple_stock_analysis.calculate_sma. repeat raises_only_step. Qed.

Lemma raises_only_data_calculate data w :
  raises_only P (apple_stock_data.calculate_sma data w).
Proof. unfold apple_stock_data.calculate_sma. repeat raises_only_step. Qed.

Lemma raises_only_process_and_save data filename :
  raises_only P (apple_stock_analysis.process_and_save_data E data filename).
Proof.
  unfold apple_stock_analysis.process_and_save_data, copy.
  repeat first [apply raises_only_getitems_ref | apply raises_only_reset_index_inplace
               | apply raises_only_to_csv | raises_only_step].
Qed.

Lemma raises_only_visualize data ticker :
  raises_only P (apple_stock_analysis.visualize_data E data ticker).
Proof. unfold apple_stock_analysis.visualize_data. repeat raises_only_step. Qed.

Lemma raises_only_save_to_csv data filename :
  raises_only P (apple_stock_data.save_to_csv E data filename).
Proof.
  unfold apple_stock_data.save_to_csv.
  repeat first [apply raises_only_to_csv | raises_only_step].
Qed.

Lemma raises_only_plot_data data ticker w save_image :
  raises_only P (apple_stock_data.plot_data E data ticker w save_image).
Proof.
  unfold apple_stock_data.plot_data. repeat raises_only_step.
  destruct save_image; repeat raises_only_step.
Qed.

End Escapes.

(** The fetch step of [apple_stock_data.py] ends the process itself. *)
Lemma data_fetch_exits E ticker start_date end_date :
  raises_only (fun e => e = SystemExit 1)
              (apple_stock_data.fetch_stock_data E ticker start_date end_date).
Proof.
  intros σ e σ' H.
  unfold apple_stock_data.fetch_stock_data, try_except, download, bind, print, alloc,
    load, sys_exit, raise, ret in H.
  destruct (yf_download E ticker start_date end_date) as [df|msg]; simpl in H.
  - rewrite lookup_insert_eq in H. destruct (empty df); simpl in H; by simplify_eq.
  - by simplify_eq.
Qed.

(** The body of [main] in [apple_stock_analysis.py] is guarded: [main]
    returns whatever happens. *)
Lemma analysis_main_returns E ticker w days_back output_csv σ :
  exists σ', apple_stock_analysis.main_with E ticker w days_back output_csv σ = (Ok tt, σ').
Proof.
  unfold apple_stock_analysis.main_with, try_except.
  match goal with |- context [?body σ] =>
    assert (raises_only caught body) as Hbody; [|destruct (body σ) as [[[]|e] σb] eqn:Hrun]
  end.
  - repeat first [ apply raises_only_analysis_fetch | apply raises_only_analysis_calculate
                 | apply raises_only_process_and_save | apply raises_only_visualize
                 | raises_only_step ]; done.
  - by eexists.
  - apply Hbody in Hrun. unfold caught in Hrun. rewrite Hrun. by eexists.
Qed.

Lemma data_main_exit_nonzero E ticker w :
  raises_only (fun e => e <> SystemExit 0) (apple_stock_data.main_with E ticker w).
Proof.
  assert (forall e, caught e -> e <> SystemExit 0) as Hlib by (by intros [] ?).
  unfold apple_stock_data.main_with.
  repeat first [ apply raises_only_data_calculate | apply raises_only_reset_index_inplace
               | apply raises_only_getitems_ref | apply raises_only_save_to_csv
               | apply raises_only_plot_data | raises_only_step ]; try done.
  intros σ e σ' H%data_fetch_exits. by subst.
Qed.

(** ** The table written to the CSV file *)

Lemma final_run_script {A} (main : M A) σ : final (run_script main σ) = (main σ).2.
Proof.
  unfold run_script. destruct (main σ) as [[a|e] σ']; [done|]. by destruct e.
Qed.


Section PriceTable.

Context (dates : list date) (o h l : Column) (closes : list Q).

Local Abbreviation written := (csv_of (price_table dates o h l closes 10)).






End PriceTable.


Lemma sample_series_is_price_series :
  price_series sample_series
    [1; 2; 3; 4; 5; 8; 9; 10; 11; 12; 15; 16]%Z
    [1; 2; 3; 4; 5; 6; 7; 8; 9; 10; 11; 12]%Q.
Proof.
  split; try done; try (by eexists).
  repeat constructor; done.
Qed.


(** ** Exit status *)

Lemma analysis_body_caught E : raises_only caught (analysis_body E).
Proof.
  unfold analysis_body.
  repeat first [ apply raises_only_analysis_fetch | apply raises_only_analysis_calculate
               | apply raises_only_process_and_save | apply raises_only_visualize
               | raises_only_step ]; done.
Qed.

Lemma data_after_fetch_caught E data : raises_only caught (data_after_fetch E data).
Proof.
  unfold data_after_fetch.
  repeat first [ apply raises_only_data_calculate | apply raises_only_reset_index_inplace
               | apply raises_only_getitems_ref | apply raises_only_save_to_csv
               | apply raises_only_plot_data | raises_only_step ]; done.
Qed.

(** C8, as stated, fails in both scripts: after a failed fetch
    [apple_stock_analysis.py] ends with status 0, and an unwritable
    CSV path makes [apple_stock_data.py] end with a traceback and
    status 1 instead of returning. *)
Lemma exit_status_counterexample :
  fetch_fails offline_env "AAPL" (now offline_env - 365)%Z (now offline_env) = true /\
  status (run_script (apple_stock_analysis.main offline_env) (start ∅)) = 0%Z /\
  fetch_fails readonly_env "AAPL" (now readonly_env - 365)%Z (now readonly_env) = false /\
  status (run_script (apple_stock_data.main readonly_env) (start ∅)) = 1%Z /\
  traceback (run_script (apple_stock_data.main readonly_env) (start ∅))
  = Some (OSError "apple_stock_data.csv").
Proof. split_and!; vm_compute; reflexivity. Qed.

(** C8, amended. [apple_stock_analysis.py] always returns from [main],
    so its exit status is 0 whatever happens: every error of the
    guarded body, the fetch failure included, is caught, printed after
    [An error occurred: ] and followed by a normal return.
    [apple_stock_data.py] ends with status 0 exactly when [main]
    returns; a failed fetch ends it through [sys.exit(1)]: status 1,
    no traceback, no file; after a successful fetch [main] is the
    remaining steps with no handler around them, so an error of any of
    them ends the process with that error as traceback and status 1. *)
Theorem exit_status_by_script E σ :
  (status (run_script (apple_stock_analysis.main E) σ) = 0%Z /\
   traceback (run_script (apple_stock_analysis.main E) σ) = None) /\
  (forall e σ',
     analysis_body E σ = (Raise e, σ') ->
     apple_stock_analysis.main E σ
     = (Ok tt, {| frames := frames σ';
                  stdout := stdout σ' ++ [[Text "An error occurred: "; Exc e]];
                  files := files σ' |})) /\
  (forall σ', analysis_body E σ = (Ok tt, σ') -> apple_stock_analysis.main E σ = (Ok tt, σ')) /\
  (status (run_script (apple_stock_data.main E) σ) = 0%Z
   <-> exists σ', apple_stock_data.main E σ = (Ok tt, σ')) /\
  (fetch_fails E "AAPL" (now E - 365)%Z (now E) = true ->
   status (run_script (apple_stock_data.main E) σ) = 1%Z /\
   traceback (run_script (apple_stock_data.main E) σ) = None /\
   files (final (run_script (apple_stock_data.main E) σ)) = files σ /\
   (exists e, last (stdout (final (run_script (apple_stock_analysis.main E) σ)))
              = Some [Text "An error occurred: "; Exc e]) /\
   files (final (run_script (apple_stock_analysis.main E) σ)) = files σ) /\
  (forall data σ1,
     apple_stock_data.fetch_stock_data E "AAPL" (now E - 365)%Z (now E) (announced E σ)
     = (Ok data, σ1) ->
     apple_stock_data.main E σ = data_after_fetch E data σ1 /\
     forall e σ',
       data_after_fetch E data σ1 = (Raise e, σ') ->
       status (run_script (apple_stock_data.main E) σ) = 1%Z /\
       traceback (run_script (apple_stock_data.main E) σ) = Some e /\
       final (run_script (apple_stock_data.main E) σ) = σ').
Proof.
  split_and!.
  - destruct (analysis_main_returns E "AAPL" 10 365 "apple_stock_data.csv" σ) as [σ' Hrun].
    unfold run_script, apple_stock_analysis.main. by rewrite Hrun.
  - destruct (analysis_main_returns E "AAPL" 10 365 "apple_stock_data.csv" σ) as [σ' Hrun].
    unfold run_script, apple_stock_analysis.main. by rewrite Hrun.
  - intros e σ' Hbody.
    pose proof (analysis_body_caught E σ e σ' Hbody) as He. unfold caught in He.
    unfold apple_stock_analysis.main, apple_stock_analysis.main_with, try_except.
    fold (analysis_body E). by rewrite Hbody, He.
  - intros σ' Hbody.
    unfold apple_stock_analysis.main, apple_stock_analysis.main_with, try_except.
    fold (analysis_body E). by rewrite Hbody.
  - unfold run_script.
    destruct (apple_stock_data.main E σ) as [[[]|e] σ'] eqn:Hrun.
    + split; [by eexists|done].
    + apply data_main_exit_nonzero in Hrun.
      split; [|by intros [? [=]]].
      destruct e; simpl; try done. intros ->. done.
  - intros Hf. rewrite !final_run_script.
    destruct (data_fetch_fails E "AAPL" (now E - 365)%Z (now E) (announced E σ) Hf)
      as (σd & Hd & Hfd).
    destruct (analysis_fetch_fails E "AAPL" 365 σ Hf) as (e & σa & Ha & He & Hfa).
    assert (apple_stock_data.main E σ = (Raise (SystemExit 1), σd)) as Hmain.
    { unfold apple_stock_data.main, apple_stock_data.main_with.
      unfold bind at 1. unfold print at 1. fold (announced E σ). by erewrite bind_Raise. }
    assert (apple_stock_analysis.main E σ
            = (Ok tt, {| frames := frames σa;
                         stdout := stdout σa ++ [[Text "An error occurred: "; Exc e]];
                         files := files σa |})) as Hmain'.
    { unfold apple_stock_analysis.main, apple_stock_analysis.main_with, try_except.
      erewrite bind_Raise by done. unfold caught in He. by rewrite He. }
    unfold run_script. rewrite Hmain, Hmain'. simpl.
    split_and!; [done..| |done].
    exists e. by rewrite last_snoc.
  - intros data σ1 Hfetch.
    assert (apple_stock_data.main E σ = data_after_fetch E data σ1) as Hmain.
    { unfold apple_stock_data.main, apple_stock_data.main_with.
      unfold bind at 1. unfold print at 1. fold (announced E σ).
      unfold bind at 1. by rewrite Hfetch. }
    split; [done|]. intros e σ' Hrun.
    pose proof (data_after_fetch_caught E data σ1 e σ' Hrun) as He. unfold caught in He.
    unfold run_script. rewrite Hmain, Hrun. by destruct e.
Qed.

Lemma exit_status_by_script_witness :
  (status (run_script (apple_stock_data.main offline_env) (start ∅)) = 1%Z /\
   traceback (run_script (apple_stock_data.main offline_env) (start ∅)) = None /\
   files (final (run_script (apple_stock_data.main offline_env) (start ∅)))
   = files (start ∅) /\
   (exists e,
      last (stdout (final (run_script (apple_stock_analysis.main offline_env) (start ∅))))
      = Some [Text "An error occurred: "; Exc e]) /\
   files (final (run_script (apple_stock_analysis.main offline_env) (start ∅)))
   = files (start ∅)) /\
  (status (run_script (apple_stock_data.main readonly_env) (start ∅)) = 1%Z /\
   traceback (run_script (apple_stock_data.main readonly_env) (start ∅))
   = Some (OSError "apple_stock_data.csv")) /\
  (exists σ',
     apple_stock_analysis.main readonly_env (start ∅) = (Ok tt, σ') /\
     last (stdout σ') = Some [Text "An error occurred: "; Exc (OSError "apple_stock_data.csv")]).
Proof.
  split; [|split].
  - apply (exit_status_by_script offline_env (start ∅)). reflexivity.
  - destruct (exit_status_by_script readonly_env (start ∅)) as (_ & _ & _ & _ & _ & Hafter).
    destruct (Hafter 0%nat
                (announced readonly_env
                   {| frames := {[ 0%nat := sample_series ]}; stdout := []; files := ∅ |}))
      as [_ Huncaught]; [vm_compute; reflexivity|].
    edestruct Huncaught as (Hst & Htb & _); [vm_compute; reflexivity|].
    by split.
  - destruct (exit_status_by_script readonly_env (start ∅)) as (_ & Hcaught & _).
    eexists. split; [apply Hcaught; vm_compute; reflexivity|].
    reflexivity.
Defined.

(** ** The hard-coded column name of the save step *)

Lemma select_missing_sma ix cols w sma :
  is_Some (assoc "Open" cols) -> is_Some (assoc "High" cols) ->
  is_Some (assoc "Low" cols) -> is_Some (assoc "Close" cols) ->
  assoc "10_SMA" cols = None -> w <> 10%Z ->
  getitems {| index := ix; columns := assign (sma_name w) sma cols |}
           ["Open"; "High"; "Low"; "Close"; "10_SMA"]
  = Raise (KeyError "['10_SMA'] not in index").
Proof.
  intros [o Ho] [h Hh] [l Hl] [c Hc] Hnone Hw.
  unfold getitems. simpl. unfold mem.
  rewrite !assoc_assign_ne, Ho, Hh, Hl, Hc, Hnone; [reflexivity|..].
  - by intros ?%sma_name_10.
  - apply sma_name_not_price. (apply list_elem_of_In; simpl; tauto).
  - apply sma_name_not_price. (apply list_elem_of_In; simpl; tauto).
  - apply sma_name_not_price. (apply list_elem_of_In; simpl; tauto).
  - apply sma_name_not_price. (apply list_elem_of_In; simpl; tauto).
Qed.

(** C10, as stated, fails at a window the kernels do not take: with
    window 2^63 the run fails in the calculation step, in the library;
    the save step is never reached and no column is reported
    missing. *)
Lemma wide_window_fails_before_save :
  (0 < too_wide)%Z /\ too_wide <> 10%Z /\
  exists msg,
    stdout (apple_stock_analysis.main_with sample_env "AAPL" too_wide 365
              "apple_stock_data.csv" (start ∅)).2
    = [[Text "Fetching "; Int 365; Text " days of historical data for ";
        Text "AAPL"; Text "..."];
       [Text "Data fetched successfully!"];
       [Text "Calculating "; Int too_wide; Text "-day SMA..."];
       [Text "An error occurred: "; Exc (OverflowError msg)]].
Proof. split_and!; [done|done|]. eexists. vm_compute. reflexivity. Qed.

(** C10, amended. On a price series without a column [10_SMA], a run
    of [apple_stock_analysis.py] configured with a window
    [0 < w < 2^63] other than 10 fetches and calculates, then fails in
    the save step, whose selection of the hard-coded name raises
    [KeyError "['10_SMA'] not in index"]; [main] prints the error,
    returns, and no file is written.  Outside that range the run ends
    the same way but in the calculation step: on the window check for
    [w < 0], in the library for [w >= 2^63]; window 0 fails in the
    save step like the positive ones.  So the pipeline can only
    succeed with window 10. *)
Theorem save_step_needs_window_10 E σ ticker w output_csv df dates closes :
  yf_download E ticker (now E - 365)%Z (now E) = Downloaded df ->
  price_series df dates closes ->
  assoc "10_SMA" (columns df) = None ->
  w <> 10%Z ->
  exists σ' e,
    apple_stock_analysis.main_with E ticker w 365 output_csv σ = (Ok tt, σ') /\
    files σ' = files σ /\
    stdout σ'
    = stdout σ
      ++ [[Text "Fetching "; Int 365; Text " days of historical data for ";
           Text ticker; Text "..."];
          [Text "Data fetched successfully!"];
          [Text "Calculating "; Int w; Text "-day SMA..."];
          [Text "An error occurred: "; Exc e]] /\
    ((0 <= w <= int64_max)%Z -> e = KeyError "['10_SMA'] not in index") /\
    ((w < 0)%Z -> e = ValueError "window must be an integer 0 or greater") /\
    ((int64_max < w)%Z -> exists msg, e = OverflowError msg).
Proof.
  intros Hd [Hix Hrows Hsorted Ho Hh Hl Hc Hlen Hnodate] Hnosma Hw.
  assert (empty df = false) as Hne.
  { unfold empty. rewrite Hix. simpl.
    destruct dates; [done|]. destruct (columns df); done. }
  unfold apple_stock_analysis.main_with, try_except.
  rewrite (bind_Ok _ _ _ _ _ (analysis_fetch_Ok E _ _ σ df Hd Hne)).
  destruct (Z.ltb_spec w 0) as [Hneg|Hpos]; [|destruct (Z.ltb_spec int64_max w) as [Hbig|Hfit]].
  - erewrite bind_Raise; cycle 1.
    { rewrite (analysis_calculate_sma_run _ _ df) by (simpl; apply lookup_insert_eq).
      unfold calculated, getitem. rewrite Hc, rolling_mean_negative by done. done. }
    simpl. eexists _, _. split_and!; [done..| | | |]; simpl.
    + by rewrite <- !app_assoc.
    + lia.
    + done.
    + unfold int64_max. lia.
  - erewrite bind_Raise; cycle 1.
    { rewrite (analysis_calculate_sma_run _ _ df) by (simpl; apply lookup_insert_eq).
      unfold calculated, getitem. rewrite Hc, rolling_mean_overflow; [done|done| |done].
      simpl. unfold numeric. rewrite length_fmap, Hlen. by destruct dates. }
    simpl. eexists _, _. split_and!; [done..| | | |]; simpl.
    + by rewrite <- !app_assoc.
    + lia.
    + lia.
    + by eexists.
  - erewrite bind_Ok; cycle 1.
    { rewrite (analysis_calculate_sma_run _ _ df) by (simpl; apply lookup_insert_eq).
      unfold calculated, getitem. rewrite Hc, rolling_mean_Float64 by done. done. }
    erewrite bind_Raise; cycle 1.
    { eapply process_and_save_missing; [simpl; apply lookup_insert_eq|].
      unfold setitem. apply select_missing_sma; [done..| |done|done].
      by rewrite Hc. }
    simpl. eexists _, _. split_and!; [done..| | | |]; simpl.
    + by rewrite <- !app_assoc.
    + done.
    + lia.
    + lia.
Qed.

Lemma save_step_needs_window_10_witness :
  exists σ' e,
    apple_stock_analysis.main_with sample_env "AAPL" 20 365 "apple_stock_data.csv" (start ∅)
    = (Ok tt, σ') /\
    files σ' = files (start ∅) /\
    stdout σ'
    = stdout (start ∅)
      ++ [[Text "Fetching "; Int 365; Text " days of historical data for ";
           Text "AAPL"; Text "..."];
          [Text "Data fetched successfully!"];
          [Text "Calculating "; Int 20; Text "-day SMA..."];
          [Text "An error occurred: "; Exc e]] /\
    ((0 <= 20 <= int64_max)%Z -> e = KeyError "['10_SMA'] not in index") /\
    ((20 < 0)%Z -> e = ValueError "window must be an integer 0 or greater") /\
    ((int64_max < 20)%Z -> exists msg, e = OverflowError msg).
Proof.
  apply (save_step_needs_window_10 sample_env (start ∅) "AAPL" 20
           "apple_stock_data.csv" sample_series
           [1; 2; 3; 4; 5; 8; 9; 10; 11; 12; 15; 16]%Z
           [1; 2; 3; 4; 5; 6; 7; 8; 9; 10; 11; 12]%Q);
    [reflexivity | apply sample_series_is_price_series | reflexivity | lia].
Defined.

(** * Further properties of the calculation step *)

Lemma add_mean_count_nan (l : list cell) (acc : nat * Q) :
  NaN ∈ l -> (foldl add_mean acc l).1 < acc.1 + length l.
Proof.
  revert acc. induction l as [|[x|] l IH]; intros acc Hin.
  - by apply elem_of_nil in Hin.
  - apply elem_of_cons in Hin as [?|Hin]; [done|].
    simpl. specialize (IH (S acc.1, (acc.2 + x)%Q) Hin). simpl in IH. lia.
  - simpl. pose proof (add_mean_count l acc). lia.
Qed.

Lemma slice_elem {A} (l : list A) (s e : Z) j x :
  (0 <= s <= Z.of_nat j)%Z -> (Z.of_nat j < e)%Z -> l !! j = Some x -> x ∈ slice l s e.
Proof.
  intros Hs He Hl. unfold slice.
  apply (list_elem_of_lookup_2 _ (j - Z.to_nat s)).
  rewrite lookup_take_lt by lia. rewrite lookup_drop. rewrite <- Hl. f_equal. lia.
Qed.

(** A missing cell in the window leaves the row without a mean. *)
Lemma roll_mean_at_missing (values : list cell) w i j :
  (0 < w)%Z -> i < length values ->
  (Z.of_nat i - w < Z.of_nat j <= Z.of_nat i)%Z -> values !! j = Some NaN ->
  roll_mean_at values w w i = NaN.
Proof.
  intros Hw Hi Hj Hnan. unfold roll_mean_at.
  rewrite get_window_bounds_pos by done.
  set (l := slice values (Z.max (Z.of_nat i + 1 - w) 0) (Z.of_nat i + 1)).
  assert (NaN ∈ l) as Hin by (apply (slice_elem values _ _ j); [lia|lia|done]).
  pose proof (add_mean_count_nan l (0, 0%Q) Hin) as Hc.
  pose proof (slice_length_le values (Z.max (Z.of_nat i + 1 - w) 0) (Z.of_nat i + 1)) as Hlen.
  fold l in Hlen.
  destruct (foldl add_mean (0, 0%Q) l) as [nobs sum_x]. simpl in Hc.
  unfold calc_mean. destruct (Z.leb_spec w (Z.of_nat nobs)); [lia|done].
Qed.

Lemma f64_roll_mean_missing (values : list float) w i j :
  (0 < w)%Z -> i < length values ->
  (Z.of_nat i - w < Z.of_nat j <= Z.of_nat i)%Z -> values !! j = Some nan ->
  f64.roll_mean values w w !! i = Some nan.
Proof.
  intros Hw Hi Hj Hnan. rewrite f64_roll_mean_lookup by done. f_equal.
  destruct (state_at_counts values w i ltac:(lia) Hi) as [Hn _].
  rewrite row_bounds_pos in Hn by done. cbn [fst snd] in Hn.
  set (l := slice values (Z.max (Z.of_nat i + 1 - w) 0) (Z.of_nat i + 1)) in *.
  assert (nan ∈ l) as Hin by (apply (slice_elem values _ _ j); [lia|lia|done]).
  pose proof (count_lt f64.notnan l nan Hin eq_refl) as Hc.
  pose proof (slice_length_le values (Z.max (Z.of_nat i + 1 - w) 0) (Z.of_nat i + 1)) as Hlen.
  fold l in Hlen.
  unfold f64.calc_mean.
  destruct (Z.leb_spec w (f64.nobs (state_at values w i))); [lia|done].
Qed.

Lemma rolled_missing close w i j :
  is_float close = true ->
  (0 < w)%Z -> i < column_length close ->
  (Z.of_nat i - w < Z.of_nat j <= Z.of_nat i)%Z -> missing_at close j ->
  missing_at (rolled close w) i.
Proof.
  intros Hfl Hw Hi Hj Hm. destruct close as [v|v|v|v]; try done; simpl in *.
  - rewrite roll_mean_lookup by done. f_equal. by eapply roll_mean_at_missing.
  - by eapply f64_roll_mean_missing.
Qed.

(** X1. On a float column with gaps and for a window [0 < w < 2^63],
    the moving-average entry at row [i] is the missing marker whenever
    fewer than [w] rows are available ([i < w - 1]) or one of the
    cells [close[i-w+1 .. i]] is missing: a missing close blanks the
    averages whose windows contain it. *)
Theorem calculate_sma_missing_window σ data df close w i j :
  frames σ !! data = Some df ->
  getitem df "Close" = Ok close -> is_float close = true ->
  (0 < w <= int64_max)%Z -> i < column_length close ->
  (Z.of_nat i < w - 1)%Z
  \/ ((Z.of_nat i - w < Z.of_nat j <= Z.of_nat i)%Z /\ missing_at close j) ->
  exists df' sma,
    leaves apple_stock_analysis.calculate_sma data w σ df' /\
    leaves apple_stock_data.calculate_sma data w σ df' /\
    getitem df' (sma_name w) = Ok sma /\
    missing_at sma i.
Proof.
  intros Hl Hc Hfl Hw Hi Hcase.
  destruct (calculate_sma_rolled σ data df close w) as [Ha Hd]; [done|done|done|lia|].
  eexists _, _. split_and!; [done|done|apply getitem_setitem|].
  destruct Hcase as [Hlt|[Hj Hm]].
  - apply rolled_warmup; [done|lia|done..].
  - apply (rolled_missing close w i j); [done|lia|done..].
Qed.

Lemma calculate_sma_missing_window_witness :
  exists df' sma,
    leaves apple_stock_analysis.calculate_sma 0 2 double_gappy_world df' /\
    leaves apple_stock_data.calculate_sma 0 2 double_gappy_world df' /\
    getitem df' (sma_name 2) = Ok sma /\
    missing_at sma 3.
Proof.
  apply (calculate_sma_missing_window double_gappy_world 0 double_gappy_frame
           (Double [2; 4; nan; 8; 10]%float) 2 3 2);
    [reflexivity | reflexivity | reflexivity | unfold int64_max; lia | simpl; lia |].
  right. split; [lia|reflexivity].
Defined.

Lemma slice_app_l {A} (l later : list A) (s e : Z) :
  (Z.to_nat e <= length l) -> slice (l ++ later) s e = slice l s e.
Proof.
  intros He. unfold slice.
  destruct (decide (Z.to_nat s <= length l)) as [Hs|Hs].
  - rewrite drop_app_le by done. rewrite take_app_le; [done|].
    rewrite length_drop. lia.
  - replace (Z.to_nat e - Z.to_nat s) with 0 by lia. by rewrite !take_0.
Qed.

Lemma row_bounds_app {A} (l later : list A) w k :
  (0 <= w)%Z -> k < length l -> row_bounds (l ++ later) w k = row_bounds l w k.
Proof.
  intros Hw Hk.
  assert (k < length (l ++ later)) as Hk' by (rewrite length_app; lia).
  destruct (decide (w = 0%Z)) as [->|Hne].
  - by rewrite !row_bounds_zero.
  - by rewrite !row_bounds_pos by lia.
Qed.

Lemma row_bounds_inside {A} (l : list A) w k :
  (0 <= w)%Z -> k < length l ->
  (0 <= (row_bounds l w k).1 <= Z.of_nat k)%Z /\
  (0 <= (row_bounds l w k).2 <= Z.of_nat k + 1)%Z.
Proof.
  intros Hw Hk. destruct (decide (w = 0%Z)) as [->|Hne].
  - rewrite row_bounds_zero by done. simpl. lia.
  - rewrite row_bounds_pos by lia. simpl. lia.
Qed.

Lemma setup_app (values later : list float) (s : Z) :
  Z.to_nat s < length values -> f64.setup (values ++ later) s = f64.setup values s.
Proof. intros Hs. unfold f64.setup. by rewrite lookup_app_l. Qed.

(** The state of the kernel at a row depends on the rows up to it
    only. *)
Lemma state_at_app (values later : list float) w k :
  (0 <= w)%Z -> k < length values ->
  state_at (values ++ later) w k = state_at values w k.
Proof.
  intros Hw. induction k as [|k IH]; intros Hk.
  - cbn [state_at]. rewrite row_bounds_app by done.
    destruct (row_bounds_inside values w 0 Hw Hk) as [Hs He].
    unfold f64.row_step.
    rewrite slice_app_l, setup_app by lia. done.
  - cbn [state_at]. rewrite IH, !row_bounds_app by lia.
    destruct (row_bounds_inside values w (S k) Hw Hk) as [Hs He].
    destruct (row_bounds_inside values w k Hw ltac:(lia)) as [Hs0 He0].
    destruct (row_bounds values w k) as [s0 e0].
    destruct (row_bounds values w (S k)) as [s e]. cbn [fst snd] in *.
    unfold f64.row_step. cbn [fst snd].
    rewrite !slice_app_l, setup_app by lia. done.
Qed.

Lemma f64_roll_mean_app (values later : list float) w :
  (0 <= w)%Z ->
  take (length values) (f64.roll_mean (values ++ later) w w) = f64.roll_mean values w w.
Proof.
  intros Hw. apply list_eq. intros i.
  destruct (decide (i < length values)) as [Hi|Hi].
  - rewrite lookup_take_lt by done.
    rewrite !f64_roll_mean_lookup by (rewrite ?length_app; lia).
    by rewrite state_at_app.
  - rewrite lookup_take_ge by lia.
    symmetry. apply lookup_ge_None_2. rewrite f64_roll_mean_length. lia.
Qed.

(** X2. The averages never look ahead: when later trading days are
    appended to a close column of binary64 numbers, the averages of
    the days already there stay what they were, for every window
    [0 <= w < 2^63]. *)
Theorem calculate_sma_no_look_ahead σ1 σ2 data1 data2 df1 df2 values later w :
  frames σ1 !! data1 = Some df1 ->
  getitem df1 "Close" = Ok (Double values) ->
  frames σ2 !! data2 = Some df2 ->
  getitem df2 "Close" = Ok (Double (values ++ later)) ->
  (0 <= w <= int64_max)%Z ->
  exists df1' df2' sma1 sma2,
    leaves apple_stock_analysis.calculate_sma data1 w σ1 df1' /\
    leaves apple_stock_data.calculate_sma data1 w σ1 df1' /\
    leaves apple_stock_analysis.calculate_sma data2 w σ2 df2' /\
    leaves apple_stock_data.calculate_sma data2 w σ2 df2' /\
    getitem df1' (sma_name w) = Ok (Double sma1) /\
    getitem df2' (sma_name w) = Ok (Double sma2) /\
    take (length values) sma2 = sma1.
Proof.
  intros Hl1 Hc1 Hl2 Hc2 Hw.
  destruct (calculate_sma_rolled σ1 data1 df1 (Double values) w) as [Ha1 Hd1]; [done..|].
  destruct (calculate_sma_rolled σ2 data2 df2 (Double (values ++ later)) w) as [Ha2 Hd2];
    [done..|].
  eexists _, _, _, _.
  split_and!; [done|done|done|done|apply getitem_setitem|apply getitem_setitem|].
  apply f64_roll_mean_app. lia.
Qed.

Lemma calculate_sma_no_look_ahead_witness :
  exists df1' df2' sma1 sma2,
    leaves apple_stock_analysis.calculate_sma 0 2 double_world df1' /\
    leaves apple_stock_data.calculate_sma 0 2 double_world df1' /\
    leaves apple_stock_analysis.calculate_sma 0 2 double_longer_world df2' /\
    leaves apple_stock_data.calculate_sma 0 2 double_longer_world df2' /\
    getitem df1' (sma_name 2) = Ok (Double sma1) /\
    getitem df2' (sma_name 2) = Ok (Double sma2) /\
    take (length [2; 4; 6; 9]%float) sma2 = sma1.
Proof.
  apply (calculate_sma_no_look_ahead double_world double_longer_world 0 0
           double_frame double_longer_frame [2; 4; 6; 9]%float [7]%float 2);
    [reflexivity | reflexivity | reflexivity | reflexivity | unfold int64_max; lia].
Defined.


(** X3. A window the kernels do not take, [w >= 2^63], is an error on
    every float column that has rows: the calculation step of both
    scripts raises [OverflowError] in the library, and the frame, the
    other objects and the files stay as they were. *)
Theorem calculate_sma_window_too_wide σ data df close w :
  frames σ !! data = Some df ->
  getitem df "Close" = Ok close ->
  is_float close = true -> column_length close <> 0%nat ->
  (int64_max < w)%Z ->
  exists msg σa,
    apple_stock_analysis.calculate_sma data w σ = (Raise (OverflowError msg), σa) /\
    apple_stock_data.calculate_sma data w σ = (Raise (OverflowError msg), σ) /\
    frames σa = frames σ /\ files σa = files σ.
Proof.
  intros Hl Hc Hfl Hlen Hw.
  rewrite (analysis_calculate_sma_run _ _ df), (data_calculate_sma_run _ _ df) by done.
  unfold calculated. rewrite Hc, rolling_mean_overflow by done.
  eexists _, _. split_and!; done.
Qed.

Lemma calculate_sma_window_too_wide_witness :
  exists msg σa,
    apple_stock_analysis.calculate_sma 0 too_wide double_world
    = (Raise (OverflowError msg), σa) /\
    apple_stock_data.calculate_sma 0 too_wide double_world
    = (Raise (OverflowError msg), double_world) /\
    frames σa = frames double_world /\ files σa = files double_world.
Proof.
  apply (calculate_sma_window_too_wide double_world 0 double_frame
           (Double [2; 4; 6; 9]%float) too_wide);
    [reflexivity | reflexivity | reflexivity | done | reflexivity].
Defined.

(** X4. In binary64 a full window without a missing close can still
    be left without a mean: once the sliding sum has overflowed, the
    removal of the large close leaves it undefined.  On the closes
    2^1023, 1.5 * 2^1023 and 1 with window 2 both scripts leave the
    column NaN, infinity, NaN. *)
Theorem calculate_sma_overflowed_sum :
  Forall (fun x => exists q, denotes x q) [0x1p+1023; 0x1.8p+1023; 1]%float /\
  leaves apple_stock_analysis.calculate_sma 0 2 huge_world
         (setitem huge_frame "2_SMA" (Double [nan; infinity; nan]%float)) /\
  leaves apple_stock_data.calculate_sma 0 2 huge_world
         (setitem huge_frame "2_SMA" (Double [nan; infinity; nan]%float)).
Proof.
  split_and!.
  - repeat constructor; eexists; eexists; (split; [vm_compute; reflexivity|reflexivity]).
  - eexists. split; [vm_compute; reflexivity|reflexivity].
  - eexists. split; [vm_compute; reflexivity|reflexivity].
Qed.
Lemma assign_assign name c c' cols :
  assign name c (assign name c' cols) = assign name c cols.
Proof.
  induction cols as [|[n c0] cols IH]; simpl.
  - by rewrite String.eqb_refl.
  - destruct (String.eqb n name) eqn:Hn; simpl; rewrite Hn; [done|]. by rewrite IH.
Qed.

Lemma getitem_setitem_ne df name name' c :
  name <> name' -> getitem (setitem df name c) name' = getitem df name'.
Proof. intros Hne. unfold getitem, setitem. simpl. by rewrite assoc_assign_ne. Qed.

Lemma calculated_twice σp data df w :
  frames σp !! data = Some df ->
  match calculated σp data df w with
  | (Ok d, σ1) =>
      exists df1, frames σ1 !! d = Some df1 /\
                  calculated σ1 d df1 w = calculated σp data df w
  | (Raise _, _) => True
  end.
Proof.
  intros Hl. unfold calculated.
  destruct (getitem df "Close") as [close|] eqn:Hc; [|done].
  destruct (rolling_mean close w) as [sma|] eqn:Hs; [|done].
  eexists. split; [simpl; apply lookup_insert_eq|].
  rewrite getitem_setitem_ne, Hc, Hs
    by (apply sma_name_not_price; (apply list_elem_of_In; simpl; tauto)).
  simpl. rewrite insert_insert_eq. unfold setitem. simpl.
  by rewrite assign_assign.
Qed.

Lemma calculated_same_store σp σq data df w :
  frames σp = frames σq -> files σp = files σq ->
  (calculated σp data df w).1 = (calculated σq data df w).1 /\
  frames (calculated σp data df w).2 = frames (calculated σq data df w).2 /\
  files (calculated σp data df w).2 = files (calculated σq data df w).2.
Proof.
  intros Hfr Hfi. unfold calculated.
  destruct (getitem df "Close") as [close|]; [|done].
  destruct (rolling_mean close w) as [sma|]; [|done].
  simpl. by rewrite Hfr.
Qed.

(** X5. The calculation step is idempotent: running it a second time
    with the same window leaves the frame as the first run left it
    (the column is overwritten with the same values) and returns the
    same result.  In [apple_stock_data.py] the whole state is the
    same; [apple_stock_analysis.py] only prints its progress message
    again. *)
Theorem calculate_sma_idempotent σ data w :
  twice apple_stock_data.calculate_sma w data w σ
  = apple_stock_data.calculate_sma data w σ /\
  (twice apple_stock_analysis.calculate_sma w data w σ).1
  = (apple_stock_analysis.calculate_sma data w σ).1 /\
  frames (twice apple_stock_analysis.calculate_sma w data w σ).2
  = frames (apple_stock_analysis.calculate_sma data w σ).2 /\
  files (twice apple_stock_analysis.calculate_sma w data w σ).2
  = files (apple_stock_analysis.calculate_sma data w σ).2.
Proof.
  unfold twice, bind.
  destruct (frames σ !! data) as [df|] eqn:Hl.
  - rewrite (analysis_calculate_sma_run _ _ df), (data_calculate_sma_run _ _ df) by done.
    split.
    + pose proof (calculated_twice σ data df w Hl) as Htw.
      destruct (calculated σ data df w) as [[d|e] σ1]; [|done].
      destruct Htw as (df1 & Hl1 & Heq).
      by rewrite (data_calculate_sma_run _ _ df1).
    + match goal with |- context [calculated ?s data df w] => set (σp := s) end.
      pose proof (calculated_twice σp data df w Hl) as Htw.
      destruct (calculated σp data df w) as [[d|e] σ1] eqn:Hfirst; [|done].
      destruct Htw as (df1 & Hl1 & Heq).
      rewrite (analysis_calculate_sma_run _ _ df1) by done.
      match goal with |- context [calculated ?s d df1 w] =>
        destruct (calculated_same_store s σ1 d df1 w) as (Hr & Hfr & Hfi); [done..|]
      end.
      rewrite Hr, Hfr, Hfi, Heq. done.
  - unfold apple_stock_analysis.calculate_sma, apple_stock_data.calculate_sma,
      bind, print, load. simpl. by rewrite Hl.
Qed.

Lemma calculated_rolled σp data df close w :
  getitem df "Close" = Ok close -> is_float close = true -> (0 <= w <= int64_max)%Z ->
  calculated σp data df w
  = (Ok data,
     {| frames := <[data := setitem df (sma_name w) (rolled close w)]> (frames σp);
        stdout := stdout σp;
        files := files σp |}).
Proof. intros Hc Hfl Hw. unfold calculated. by rewrite Hc, rolling_mean_rolled. Qed.

(** X6. Averages for two different windows [0 <= w1, w2 < 2^63] live
    side by side: after the calculation step has run for window [w1]
    and then for window [w2], the frame holds under each name the
    column that a single run for that window produces; the second run
    does not disturb the first column. *)
Theorem calculate_sma_two_windows σ data df close w1 w2 :
  frames σ !! data = Some df ->
  getitem df "Close" = Ok close -> is_float close = true ->
  (0 <= w1 <= int64_max)%Z -> (0 <= w2 <= int64_max)%Z -> w1 <> w2 ->
  exists df1 df2 df12 sma1 sma2,
    leaves apple_stock_analysis.calculate_sma data w1 σ df1 /\
    leaves apple_stock_data.calculate_sma data w1 σ df1 /\
    leaves apple_stock_analysis.calculate_sma data w2 σ df2 /\
    leaves apple_stock_data.calculate_sma data w2 σ df2 /\
    leaves (twice apple_stock_analysis.calculate_sma w1) data w2 σ df12 /\
    leaves (twice apple_stock_data.calculate_sma w1) data w2 σ df12 /\
    getitem df1 (sma_name w1) = Ok sma1 /\
    getitem df2 (sma_name w2) = Ok sma2 /\
    getitem df12 (sma_name w1) = Ok sma1 /\
    getitem df12 (sma_name w2) = Ok sma2.
Proof.
  intros Hl Hc Hfl Hw1 Hw2 Hne.
  destruct (calculate_sma_rolled σ data df close w1) as [Ha1 Hd1]; [done..|].
  destruct (calculate_sma_rolled σ data df close w2) as [Ha2 Hd2]; [done..|].
  assert (sma_name w1 <> sma_name w2) as Hnames by (by intros ?%sma_name_inj).
  set (df1 := setitem df (sma_name w1) (rolled close w1)) in *.
  assert (getitem df1 "Close" = Ok close) as Hc1.
  { unfold df1. rewrite getitem_setitem_ne; [done|].
    apply sma_name_not_price. (apply list_elem_of_In; simpl; tauto). }
  exists df1, (setitem df (sma_name w2) (rolled close w2)),
    (setitem df1 (sma_name w2) (rolled close w2)),
    (rolled close w1), (rolled close w2).
  split_and!; [done|done|done|done| | |apply getitem_setitem|apply getitem_setitem
              | |apply getitem_setitem].
  - unfold leaves, twice, bind.
    rewrite (analysis_calculate_sma_run _ _ df), (calculated_rolled _ _ _ close)
      by done.
    rewrite (analysis_calculate_sma_run _ _ df1) by (simpl; apply lookup_insert_eq).
    rewrite (calculated_rolled _ _ _ close) by done.
    eexists. split; [done|]. simpl. apply lookup_insert_eq.
  - unfold leaves, twice, bind.
    rewrite (data_calculate_sma_run _ _ df), (calculated_rolled _ _ _ close) by done.
    rewrite (data_calculate_sma_run _ _ df1) by (simpl; apply lookup_insert_eq).
    rewrite (calculated_rolled _ _ _ close) by done.
    eexists. split; [done|]. simpl. apply lookup_insert_eq.
  - rewrite getitem_setitem_ne by done. apply getitem_setitem.
Qed.

Lemma calculate_sma_two_windows_witness :
  exists df1 df2 df12 sma1 sma2,
    leaves apple_stock_analysis.calculate_sma 0 2 double_world df1 /\
    leaves apple_stock_data.calculate_sma 0 2 double_world df1 /\
    leaves apple_stock_analysis.calculate_sma 0 3 double_world df2 /\
    leaves apple_stock_data.calculate_sma 0 3 double_world df2 /\
    leaves (twice apple_stock_analysis.calculate_sma 2) 0 3 double_world df12 /\
    leaves (twice apple_stock_data.calculate_sma 2) 0 3 double_world df12 /\
    getitem df1 (sma_name 2) = Ok sma1 /\
    getitem df2 (sma_name 3) = Ok sma2 /\
    getitem df12 (sma_name 2) = Ok sma1 /\
    getitem df12 (sma_name 3) = Ok sma2.
Proof.
  apply (calculate_sma_two_windows double_world 0 double_frame
           (Double [2; 4; 6; 9]%float) 2 3);
    [reflexivity | reflexivity | reflexivity
     | unfold int64_max; lia | unfold int64_max; lia | lia].
Defined.

(** X7. Without a [Close] column the calculation step raises
    [KeyError] for that name, whatever the window (the window is not
    even looked at), and adds nothing to the frame. *)
Theorem calculate_sma_without_close σ data df w :
  frames σ !! data = Some df ->
  assoc "Close" (columns df) = None ->
  exists σa,
    apple_stock_analysis.calculate_sma data w σ = (Raise (KeyError "Close"), σa) /\
    apple_stock_data.calculate_sma data w σ = (Raise (KeyError "Close"), σ) /\
    frames σa = frames σ /\ files σa = files σ.
Proof.
  intros Hl Hnone.
  rewrite (analysis_calculate_sma_run _ _ df), (data_calculate_sma_run _ _ df) by done.
  unfold calculated, getitem. rewrite Hnone.
  eexists. split_and!; done.
Qed.

Lemma calculate_sma_without_close_witness :
  exists σa,
    apple_stock_analysis.calculate_sma 0 (-5) volume_world
    = (Raise (KeyError "Close"), σa) /\
    apple_stock_data.calculate_sma 0 (-5) volume_world
    = (Raise (KeyError "Close"), volume_world) /\
    frames σa = frames volume_world /\ files σa = files volume_world.
Proof.
  apply (calculate_sma_without_close volume_world 0 volume_frame (-5));
    reflexivity.
Defined.

(** * Further properties of the other steps *)

Lemma fresh_lookup_ne (m : gmap loc DataFrame) l df :
  m !! l = Some df -> fresh (dom m) <> l.
Proof.
  intros Hl Heq. pose proof (is_fresh (dom m)) as Hfresh.
  rewrite Heq in Hfresh. apply Hfresh, elem_of_dom. by eexists.
Qed.

Lemma alloc_keeps df σ l df0 :
  frames σ !! l = Some df0 -> frames (alloc df σ).2 !! l = Some df0.
Proof.
  intros Hl. unfold alloc. simpl.
  rewrite lookup_insert_ne; [done|]. by eapply fresh_lookup_ne.
Qed.

(** X8. The fetch step of [apple_stock_data.py] has two outcomes
    only.  Either it returns a reference to a new object holding the
    downloaded frame, which is not empty, and prints nothing; or the
    download failed or was empty, and it prints one line and ends the
    process through [sys.exit(1)].  No download error ever escapes
    from it and no file is touched. *)
Theorem data_fetch_outcomes E ticker start_date end_date σ :
  match apple_stock_data.fetch_stock_data E ticker start_date end_date σ with
  | (Ok l, σ') =>
      frames σ !! l = None /\
      exists df,
        yf_download E ticker start_date end_date = Downloaded df /\
        empty df = false /\
        frames σ' = <[l := df]> (frames σ) /\
        stdout σ' = stdout σ /\ files σ' = files σ
  | (Raise e, σ') =>
      e = SystemExit 1 /\
      fetch_fails E ticker start_date end_date = true /\
      length (stdout σ') = S (length (stdout σ)) /\
      files σ' = files σ
  end.
Proof.
  unfold apple_stock_data.fetch_stock_data, fetch_fails, try_except, download, bind,
    print, alloc, load, sys_exit, raise, ret.
  destruct (yf_download E ticker start_date end_date) as [df|msg]; simpl.
  - rewrite lookup_insert_eq. destruct (empty df) eqn:He; simpl.
    + split_and!; [done..| |done]. rewrite length_app. simpl. lia.
    + split.
      * apply not_elem_of_dom, is_fresh.
      * by exists df.
  - split_and!; [done..| |done]. rewrite length_app. simpl. lia.
Qed.

(** X9. The fetch step of [apple_stock_analysis.py] asks for the
    span of [days_back] days that ends now, for a [days_back] that
    [timedelta] takes and a first day that is a date of the calendar.
    It returns a reference to a new object holding the downloaded,
    non-empty frame; an empty answer becomes [ValueError] with the
    text [No data found for ticker ...], and a failed download is
    passed on as it is.  It never ends the process itself and touches
    no file. *)
Theorem analysis_fetch_outcomes E ticker days_back σ :
  (-999999999 <= days_back <= 999999999)%Z ->
  (1 <= now E - days_back <= 3652059)%Z ->
  match apple_stock_analysis.fetch_stock_data E ticker days_back σ with
  | (Ok l, σ') =>
      frames σ !! l = None /\
      exists df,
        yf_download E ticker (now E - days_back)%Z (now E) = Downloaded df /\
        empty df = false /\
        frames σ' = <[l := df]> (frames σ) /\ files σ' = files σ
  | (Raise e, σ') =>
      ((exists msg, yf_download E ticker (now E - days_back)%Z (now E) = Failed msg
                    /\ e = DownloadError msg)
       \/ (exists df, yf_download E ticker (now E - days_back)%Z (now E) = Downloaded df
                      /\ empty df = true
                      /\ e = ValueError ("No data found for ticker " +:+ ticker))) /\
      files σ' = files σ
  end.
Proof.
  intros _ _.
  unfold apple_stock_analysis.fetch_stock_data, download, bind, print, alloc, load,
    raise, ret.
  simpl.
  destruct (yf_download E ticker (now E - days_back)%Z (now E)) as [df|msg]; simpl.
  - rewrite lookup_insert_eq. destruct (empty df) eqn:He; simpl.
    + split; [|done]. right. by exists df.
    + split.
      * apply not_elem_of_dom, is_fresh.
      * by exists df.
  - split; [|done]. left. by exists msg.
Qed.

Lemma analysis_fetch_outcomes_witness :
  match apple_stock_analysis.fetch_stock_data sample_env "AAPL" 365 (start ∅) with
  | (Ok l, σ') =>
      frames (start ∅) !! l = None /\
      exists df,
        yf_download sample_env "AAPL" (now sample_env - 365)%Z (now sample_env)
        = Downloaded df /\
        empty df = false /\
        frames σ' = <[l := df]> (frames (start ∅)) /\ files σ' = files (start ∅)
  | (Raise e, σ') =>
      ((exists msg, yf_download sample_env "AAPL" (now sample_env - 365)%Z (now sample_env)
                    = Failed msg
                    /\ e = DownloadError msg)
       \/ (exists df, yf_download sample_env "AAPL" (now sample_env - 365)%Z
                        (now sample_env) = Downloaded df
                      /\ empty df = true
                      /\ e = ValueError ("No data found for ticker " +:+ "AAPL"))) /\
      files σ' = files (start ∅)
  end.
Proof.
  apply (analysis_fetch_outcomes sample_env "AAPL" 365 (start ∅)); simpl; lia.
Defined.

Lemma process_and_save_frames E data filename σ l df0 :
  frames σ !! l = Some df0 ->
  frames (apple_stock_analysis.process_and_save_data E data filename σ).2 !! l
  = Some df0.
Proof.
  intros Hl.
  unfold apple_stock_analysis.process_and_save_data, getitems_ref, copy,
    reset_index_inplace, to_csv, write_file, bind, load, lift, store, print.
  destruct (frames σ !! data) as [df|]; [|done].
  destruct (getitems df _) as [picked|]; [|done].
  pose proof (alloc_keeps picked σ l df0 Hl) as Hl1.
  destruct (alloc picked σ) as [[l1|] σ1] eqn:Ha1; [|done].
  assert (frames σ1 !! l1 = Some picked) as Hp1.
  { unfold alloc in Ha1. injection Ha1 as <- <-. simpl. apply lookup_insert_eq. }
  simpl in Hl1 |- *. rewrite Hp1.
  pose proof (alloc_keeps picked σ1 l df0 Hl1) as Hl2.
  assert (fresh (dom (frames σ1)) <> l) as Hne by (by eapply fresh_lookup_ne).
  unfold alloc in Hl2 |- *. simpl in Hl2 |- *.
  rewrite lookup_insert_eq.
  destruct (reset_index picked) as [table|]; [|done]. simpl.
  rewrite lookup_insert_eq.
  destruct (writable E filename); simpl; by rewrite !lookup_insert_ne.
Qed.

(** X10. The save step of [apple_stock_analysis.py] works on a copy:
    whatever its outcome, every object that was in the store before,
    the frame it was given among them, is afterwards exactly as it
    was.  (The index of the caller's frame is not reset.) *)
Theorem process_and_save_keeps_objects E data filename σ l df0 :
  frames σ !! l = Some df0 ->
  frames (apple_stock_analysis.process_and_save_data E data filename σ).2 !! l
  = Some df0.
Proof. apply process_and_save_frames. Qed.

Lemma process_and_save_keeps_objects_witness :
  frames (apple_stock_analysis.process_and_save_data sample_env 0
            "apple_stock_data.csv" sample_world).2 !! 0%nat
  = Some sample_frame.
Proof.
  apply (process_and_save_keeps_objects sample_env 0 "apple_stock_data.csv"
           sample_world 0 sample_frame).
  reflexivity.
Defined.

(** X11. The save step of [apple_stock_analysis.py] reports success
    only for a file it has written, and writes nothing when it fails:
    if it returns, the file named [filename] is the only one that
    changed, it holds a CSV table, and the last line printed is the
    success message; if it raises, the files are as before and at
    most the line [Saving data to ...] was printed. *)
Theorem process_and_save_outcomes E data filename σ :
  match apple_stock_analysis.process_and_save_data E data filename σ with
  | (Ok _, σ') =>
      (exists table, files σ' = <[filename := CsvFile table]> (files σ)) /\
      last (stdout σ')
      = Some [Text "Data successfully saved to "; Text filename; Text "!"]
  | (Raise e, σ') =>
      files σ' = files σ /\
      (stdout σ' = stdout σ
       \/ stdout σ' = stdout σ ++ [[Text "Saving data to "; Text filename; Text "..."]])
  end.
Proof.
  unfold apple_stock_analysis.process_and_save_data, getitems_ref, copy,
    reset_index_inplace, to_csv, write_file, bind, load, lift, alloc, store, print.
  destruct (frames σ !! data) as [df|]; [|simpl; by auto].
  destruct (getitems df _) as [picked|]; [|simpl; by auto].
  simpl. rewrite lookup_insert_eq. simpl. rewrite lookup_insert_eq. simpl.
  destruct (reset_index picked) as [table|]; [|simpl; by auto]. simpl.
  rewrite lookup_insert_eq.
  destruct (writable E filename); simpl.
  - split; [by eexists|]. by rewrite last_snoc.
  - auto.
Qed.

(** X12. With [save_image=False] the chart step of
    [apple_stock_data.py] leaves no trace: nothing is printed and no
    file or object changes, whether it returns or raises.  It still
    raises [KeyError] when the frame lacks [Date], [Close] or the
    moving-average column of the given window. *)
Theorem plot_data_without_saving E data ticker w σ df :
  frames σ !! data = Some df ->
  (apple_stock_data.plot_data E data ticker w false σ).2 = σ /\
  ((apple_stock_data.plot_data E data ticker w false σ).1 = Ok tt
   <-> is_Some (assoc "Date" (columns df))
       /\ is_Some (assoc "Close" (columns df))
       /\ is_Some (assoc (sma_name w) (columns df))).
Proof.
  intros Hl.
  unfold apple_stock_data.plot_data, bind, load, lift, ret, getitem. rewrite Hl.
  destruct (assoc "Date" (columns df)); simpl;
    [|split; [done|split; [done|by intros [[? [=]] _]]]].
  destruct (assoc "Close" (columns df)); simpl;
    [|split; [done|split; [done|by intros (_ & [? [=]] & _)]]].
  destruct (assoc (sma_name w) (columns df)); simpl;
    [|split; [done|split; [done|by intros (_ & _ & [? [=]])]]].
  split; [done|]. split; [|done]. intros _. split_and!; by eexists.
Qed.

Lemma plot_data_without_saving_witness :
  (apple_stock_data.plot_data sample_env 0 "AAPL" 10 false sample_world).2 = sample_world /\
  ((apple_stock_data.plot_data sample_env 0 "AAPL" 10 false sample_world).1 = Ok tt
   <-> is_Some (assoc "Date" (columns sample_frame))
       /\ is_Some (assoc "Close" (columns sample_frame))
       /\ is_Some (assoc (sma_name 10) (columns sample_frame))).
Proof.
  apply (plot_data_without_saving sample_env 0 "AAPL" 10 sample_world sample_frame).
  reflexivity.
Defined.

(** * Whole runs *)

Lemma price_series_not_empty df dates closes :
  price_series df dates closes -> empty df = false.
Proof.
  intros [Hix Hrows _ _ _ _ Hc _ _]. unfold empty. rewrite Hix. simpl.
  destruct dates; [done|]. destruct (columns df); done.
Qed.

Lemma process_and_save_run E data filename σ df picked table :
  frames σ !! data = Some df ->
  getitems df ["Open"; "High"; "Low"; "Close"; "10_SMA"] = Ok picked ->
  reset_index picked = Ok table ->
  exists σ',
    apple_stock_analysis.process_and_save_data E data filename σ
    = (if writable E filename then Ok tt else Raise (OSError filename), σ')
    /\ files σ' = (if writable E filename
                   then <[filename := CsvFile (csv_of table)]> (files σ)
                   else files σ)
    /\ stdout σ'
       = stdout σ
         ++ [Text "Saving data to "; Text filename; Text "..."]
            :: (if writable E filename
                then [[Text "Data successfully saved to "; Text filename; Text "!"]]
                else []).
Proof.
  intros Hl Hg Hr.
  unfold apple_stock_analysis.process_and_save_data, getitems_ref, copy,
    reset_index_inplace, to_csv, write_file, bind, load, lift, alloc, store, print.
  rewrite Hl, Hg. simpl. rewrite !lookup_insert_eq. simpl.
  rewrite lookup_insert_eq, Hr. simpl. rewrite lookup_insert_eq.
  destruct (writable E filename); simpl; eexists; split_and!; try done.
  by rewrite <- app_assoc.
Qed.

Lemma visualize_data_run E data ticker σ df close sma :
  frames σ !! data = Some df ->
  getitem df "Close" = Ok close ->
  getitem df "10_SMA" = Ok sma ->
  apple_stock_analysis.visualize_data E data ticker σ
  = if writable E (apple_stock_analysis.lower ticker +:+ "_chart.png")
    then
      (Ok tt,
       {| frames := frames σ;
          stdout := (stdout σ ++ [[Text "Creating visualization..."]])
                    ++ [[Text "Plot saved as ";
                         Text (apple_stock_analysis.lower ticker +:+ "_chart.png");
                         Text "!"]];
          files :=
            <[apple_stock_analysis.lower ticker +:+ "_chart.png" :=
                PngFile
                  {| title := ticker +:+ " Stock Price with 10-Day SMA (Last 365 Days)";
                     lines := [("Closing Price", index_values (index df), close);
                               ("10-Day SMA", index_values (index df), sma)] |}]>
              (files σ) |})
    else
      (Raise (OSError (apple_stock_analysis.lower ticker +:+ "_chart.png")),
       {| frames := frames σ;
          stdout := stdout σ ++ [[Text "Creating visualization..."]];
          files := files σ |}).
Proof.
  intros Hl Hc Hs.
  unfold apple_stock_analysis.visualize_data, write_file, bind, load, lift, print.
  simpl. rewrite Hl, Hc, Hs. simpl.
  by destruct (writable E _).
Qed.

(** The state of [apple_stock_analysis.py] when the save step is
    reached with window 10 on a price series. *)
Lemma analysis_before_save E σ ticker days_back df dates closes :
  yf_download E ticker (now E - days_back)%Z (now E) = Downloaded df ->
  price_series df dates closes ->
  exists σ1,
    (forall B (k : loc -> M B),
        bind (apple_stock_analysis.fetch_stock_data E ticker days_back)
             (fun d => bind (apple_stock_analysis.calculate_sma d 10) k) σ
        = k (fresh (dom (frames σ))) σ1)
    /\ frames σ1 !! fresh (dom (frames σ))
       = Some (setitem df "10_SMA" (Float64 (roll_mean (numeric closes) 10 10)))
    /\ files σ1 = files σ
    /\ stdout σ1
       = stdout σ
         ++ [[Text "Fetching "; Int days_back; Text " days of historical data for ";
              Text ticker; Text "..."];
             [Text "Data fetched successfully!"];
             [Text "Calculating "; Int 10; Text "-day SMA..."]].
Proof.
  intros Hd Hps. pose proof (price_series_not_empty _ _ _ Hps) as Hne.
  destruct Hps as [Hix Hrows Hsorted Ho Hh Hl Hc Hlen Hnodate].
  eexists. split_and!.
  - intros B k.
    rewrite (bind_Ok _ _ _ _ _ (analysis_fetch_Ok E _ _ σ df Hd Hne)).
    erewrite bind_Ok; [done|].
    rewrite (analysis_calculate_sma_run _ _ df) by (simpl; apply lookup_insert_eq).
    unfold calculated, getitem. rewrite Hc, rolling_mean_Float64 by (done || (unfold int64_max; lia)). done.
  - simpl. apply lookup_insert_eq.
  - done.
  - simpl. by rewrite <- !app_assoc.
Qed.

Lemma price_columns_selected df dates closes o h l sma :
  price_series df dates closes ->
  assoc "Open" (columns df) = Some o ->
  assoc "High" (columns df) = Some h ->
  assoc "Low" (columns df) = Some l ->
  getitems (setitem df "10_SMA" sma) ["Open"; "High"; "Low"; "Close"; "10_SMA"]
  = Ok {| index := DatetimeIndex (Some "Date") dates;
          columns := [("Open", o); ("High", h); ("Low", l);
                      ("Close", Float64 (numeric closes)); ("10_SMA", sma)] |}.
Proof.
  intros [Hix _ _ _ _ _ Hc _ _] Ho Hh Hl.
  unfold setitem.
  rewrite (select_price_columns _ _ o h l (Float64 (numeric closes))) by done.
  by rewrite Hix.
Qed.

(** X13. A complete run of [apple_stock_analysis.py]: for a price
    series and window 10, with both output paths writable, [main]
    returns after seven progress lines and has written two files, the
    CSV table and the chart named after the ticker in lower case.  The
    chart plots the closes and the moving average against the trading
    days, because the save step reset the index of a copy only. *)
Theorem analysis_run_succeeds E σ ticker days_back output_csv df dates closes o h l :
  yf_download E ticker (now E - days_back)%Z (now E) = Downloaded df ->
  price_series df dates closes ->
  assoc "Open" (columns df) = Some o ->
  assoc "High" (columns df) = Some h ->
  assoc "Low" (columns df) = Some l ->
  writable E output_csv = true ->
  writable E (apple_stock_analysis.lower ticker +:+ "_chart.png") = true ->
  exists σ',
    apple_stock_analysis.main_with E ticker 10 days_back output_csv σ = (Ok tt, σ') /\
    files σ'
    = <[apple_stock_analysis.lower ticker +:+ "_chart.png" :=
          PngFile
            {| title := ticker +:+ " Stock Price with 10-Day SMA (Last 365 Days)";
               lines := [("Closing Price", Datetime64 dates, Float64 (numeric closes));
                         ("10-Day SMA", Datetime64 dates,
                          Float64 (roll_mean (numeric closes) 10 10))] |}]>
        (<[output_csv := CsvFile (csv_of (price_table dates o h l closes 10))]>
           (files σ)) /\
    stdout σ'
    = stdout σ
      ++ [[Text "Fetching "; Int days_back; Text " days of historical data for ";
           Text ticker; Text "..."];
          [Text "Data fetched successfully!"];
          [Text "Calculating "; Int 10; Text "-day SMA..."];
          [Text "Saving data to "; Text output_csv; Text "..."];
          [Text "Data successfully saved to "; Text output_csv; Text "!"];
          [Text "Creating visualization..."];
          [Text "Plot saved as ";
           Text (apple_stock_analysis.lower ticker +:+ "_chart.png"); Text "!"]].
Proof.
  intros Hd Hps Ho Hh Hl Hwc Hwp.
  destruct (analysis_before_save E σ ticker days_back df dates closes Hd Hps)
    as (σ1 & Hrun1 & Hl1 & Hf1 & Hs1).
  edestruct (process_and_save_run E (fresh (dom (frames σ))) output_csv σ1)
    as (σ2 & Hrun2 & Hf2 & Hs2);
    [exact Hl1|by eapply price_columns_selected|reflexivity|].
  rewrite Hwc in Hrun2, Hf2, Hs2.
  pose proof (process_and_save_frames E (fresh (dom (frames σ))) output_csv σ1 _ _ Hl1)
    as Hl2.
  rewrite Hrun2 in Hl2. simpl in Hl2.
  unfold apple_stock_analysis.main_with, try_except.
  rewrite Hrun1. erewrite bind_Ok by exact Hrun2.
  erewrite visualize_data_run; [|exact Hl2| |apply getitem_setitem].
  2:{ rewrite getitem_setitem_ne by done. unfold getitem.
      by rewrite (ps_close _ _ _ Hps). }
  rewrite Hwp. eexists. split_and!; [done| |].
  - simpl. rewrite Hf2, Hf1, (ps_index _ _ _ Hps). done.
  - simpl. rewrite Hs2, Hs1. by rewrite <- !app_assoc.
Qed.

Lemma analysis_run_succeeds_witness :
  exists σ',
    apple_stock_analysis.main_with sample_env "AAPL" 10 365 "apple_stock_data.csv"
      (start ∅) = (Ok tt, σ') /\
    files σ'
    = <[apple_stock_analysis.lower "AAPL" +:+ "_chart.png" :=
          PngFile
            {| title := "AAPL" +:+ " Stock Price with 10-Day SMA (Last 365 Days)";
               lines := [("Closing Price",
                          Datetime64 [1; 2; 3; 4; 5; 8; 9; 10; 11; 12; 15; 16]%Z,
                          Float64 (numeric [1; 2; 3; 4; 5; 6; 7; 8; 9; 10; 11; 12]%Q));
                         ("10-Day SMA",
                          Datetime64 [1; 2; 3; 4; 5; 8; 9; 10; 11; 12; 15; 16]%Z,
                          Float64 (roll_mean
                                     (numeric [1; 2; 3; 4; 5; 6; 7; 8; 9; 10; 11; 12]%Q)
                                     10 10))] |}]>
        (<["apple_stock_data.csv" :=
             CsvFile (csv_of (price_table
                                [1; 2; 3; 4; 5; 8; 9; 10; 11; 12; 15; 16]%Z
                                (Float64 (numeric [1; 2; 3; 4; 5; 6; 7; 8; 9; 10; 11; 12]%Q))
                                (Float64 (numeric [2; 3; 4; 5; 6; 7; 8; 9; 10; 11; 12; 13]%Q))
                                (Float64 (numeric [1; 1; 2; 3; 4; 5; 6; 7; 8; 9; 10; 11]%Q))
                                [1; 2; 3; 4; 5; 6; 7; 8; 9; 10; 11; 12]%Q 10))]>
           (files (start ∅))) /\
    stdout σ'
    = stdout (start ∅)
      ++ [[Text "Fetching "; Int 365; Text " days of historical data for ";
           Text "AAPL"; Text "..."];
          [Text "Data fetched successfully!"];
          [Text "Calculating "; Int 10; Text "-day SMA..."];
          [Text "Saving data to "; Text "apple_stock_data.csv"; Text "..."];
          [Text "Data successfully saved to "; Text "apple_stock_data.csv"; Text "!"];
          [Text "Creating visualization..."];
          [Text "Plot saved as ";
           Text (apple_stock_analysis.lower "AAPL" +:+ "_chart.png"); Text "!"]].
Proof.
  apply (analysis_run_succeeds sample_env (start ∅) "AAPL" 365 "apple_stock_data.csv"
           sample_series
           [1; 2; 3; 4; 5; 8; 9; 10; 11; 12; 15; 16]%Z
           [1; 2; 3; 4; 5; 6; 7; 8; 9; 10; 11; 12]%Q);
    [reflexivity | apply sample_series_is_price_series
     | reflexivity | reflexivity | reflexivity | reflexivity | reflexivity].
Defined.

(** X14. When the CSV path cannot be written, a run of
    [apple_stock_analysis.py] stops in the save step: [main] prints
    the error and returns, no file is written, and the chart step is
    not started. *)
Theorem analysis_run_csv_unwritable E σ ticker days_back output_csv df dates closes :
  yf_download E ticker (now E - days_back)%Z (now E) = Downloaded df ->
  price_series df dates closes ->
  writable E output_csv = false ->
  exists σ',
    apple_stock_analysis.main_with E ticker 10 days_back output_csv σ = (Ok tt, σ') /\
    files σ' = files σ /\
    stdout σ'
    = stdout σ
      ++ [[Text "Fetching "; Int days_back; Text " days of historical data for ";
           Text ticker; Text "..."];
          [Text "Data fetched successfully!"];
          [Text "Calculating "; Int 10; Text "-day SMA..."];
          [Text "Saving data to "; Text output_csv; Text "..."];
          [Text "An error occurred: "; Exc (OSError output_csv)]].
Proof.
  intros Hd Hps Hwc.
  pose proof Hps as [_ _ _ [o Ho] [h Hh] [l Hl] _ _ _].
  destruct (analysis_before_save E σ ticker days_back df dates closes Hd Hps)
    as (σ1 & Hrun1 & Hl1 & Hf1 & Hs1).
  edestruct (process_and_save_run E (fresh (dom (frames σ))) output_csv σ1)
    as (σ2 & Hrun2 & Hf2 & Hs2);
    [exact Hl1|by eapply (price_columns_selected _ _ _ o h l)|reflexivity|].
  rewrite Hwc in Hrun2, Hf2, Hs2.
  unfold apple_stock_analysis.main_with, try_except.
  rewrite Hrun1. erewrite bind_Raise by exact Hrun2. simpl.
  eexists. split_and!; [done| |].
  - simpl. by rewrite Hf2.
  - simpl. rewrite Hs2, Hs1. by rewrite <- !app_assoc.
Qed.

Lemma analysis_run_csv_unwritable_witness :
  exists σ',
    apple_stock_analysis.main_with readonly_env "AAPL" 10 365 "apple_stock_data.csv"
      (start ∅) = (Ok tt, σ') /\
    files σ' = files (start ∅) /\
    stdout σ'
    = stdout (start ∅)
      ++ [[Text "Fetching "; Int 365; Text " days of historical data for ";
           Text "AAPL"; Text "..."];
          [Text "Data fetched successfully!"];
          [Text "Calculating "; Int 10; Text "-day SMA..."];
          [Text "Saving data to "; Text "apple_stock_data.csv"; Text "..."];
          [Text "An error occurred: "; Exc (OSError "apple_stock_data.csv")]].
Proof.
  apply (analysis_run_csv_unwritable readonly_env (start ∅) "AAPL" 365
           "apple_stock_data.csv" sample_series
           [1; 2; 3; 4; 5; 8; 9; 10; 11; 12; 15; 16]%Z
           [1; 2; 3; 4; 5; 6; 7; 8; 9; 10; 11; 12]%Q);
    [reflexivity | apply sample_series_is_price_series | reflexivity].
Defined.

(** ** Whole runs of apple_stock_data.py *)

Lemma eqb_price_sma name w :
  name ∈ ["Open"; "High"; "Low"; "Close"; "Date"] ->
  String.eqb name (sma_name w) = false.
Proof.
  intros Hin. apply String.eqb_neq. intros Heq.
  by apply (sma_name_not_price w name).
Qed.

Section PriceTableColumns.

Context (dates : list date) (o h l : Column) (closes : list Q) (w : Z).

Lemma price_table_Date :
  getitem (price_table dates o h l closes w) "Date" = Ok (Datetime64 dates).
Proof. reflexivity. Qed.

Lemma price_table_Close :
  getitem (price_table dates o h l closes w) "Close" = Ok (Float64 (numeric closes)).
Proof. reflexivity. Qed.

Lemma price_table_sma :
  getitem (price_table dates o h l closes w) (sma_name w)
  = Ok (Float64 (roll_mean (numeric closes) w w)).
Proof.
  unfold getitem, price_table. cbn [columns assoc].
  rewrite !eqb_price_sma by (apply list_elem_of_In; simpl; tauto). by rewrite String.eqb_refl.
Qed.

Lemma price_table_header_line :
  header_line (csv_of (price_table dates o h l closes w))
  = "Date,Open,High,Low,Close," +:+ sma_name w.
Proof. reflexivity. Qed.

End PriceTableColumns.

(** The state of [apple_stock_data.py] when the frame to be written
    has been selected, for a price series and a window
    [0 <= w < 2^63]. *)
Lemma data_before_save E σ ticker w df dates closes o h l :
  yf_download E ticker (now E - 365)%Z (now E) = Downloaded df ->
  price_series df dates closes ->
  assoc "Open" (columns df) = Some o ->
  assoc "High" (columns df) = Some h ->
  assoc "Low" (columns df) = Some l ->
  (0 <= w <= int64_max)%Z ->
  exists final_data σ3,
    (forall B (k : loc -> M B),
        bind (apple_stock_data.fetch_stock_data E ticker (now E - 365)%Z (now E))
             (fun d =>
                bind (apple_stock_data.calculate_sma d w)
                     (fun d =>
                        bind (reset_index_inplace d)
                             (fun _ =>
                                bind (getitems_ref d ["Date"; "Open"; "High"; "Low";
                                                      "Close"; sma_name w]) k)))
             σ
        = k final_data σ3)
    /\ frames σ3 !! final_data = Some (price_table dates o h l closes w)
    /\ files σ3 = files σ
    /\ stdout σ3 = stdout σ.
Proof.
  intros Hd Hps Ho Hh Hl Hw. pose proof (price_series_not_empty _ _ _ Hps) as Hne.
  destruct Hps as [Hix Hrows Hsorted _ _ _ Hc Hlen Hnodate].
  eexists _, _. split_and!.
  - intros B k.
    erewrite bind_Ok by (by apply data_fetch_Ok).
    erewrite bind_Ok; cycle 1.
    { rewrite (data_calculate_sma_run _ _ df) by (simpl; apply lookup_insert_eq).
      unfold calculated, getitem. rewrite Hc, rolling_mean_Float64 by (done || (unfold int64_max; lia)). done. }
    erewrite bind_Ok; cycle 1.
    { unfold reset_index_inplace, bind, load, lift, store. simpl.
      rewrite lookup_insert_eq. unfold reset_index, mem. simpl.
      rewrite Hix, assoc_assign_ne, Hnodate
        by (apply sma_name_not_price; (apply list_elem_of_In; simpl; tauto)).
      done. }
    erewrite bind_Ok; [done|].
    unfold getitems_ref, bind, load, lift, alloc. simpl.
    rewrite lookup_insert_eq.
    rewrite (getitems_all _ _ [Datetime64 dates; o; h; l; Float64 (numeric closes);
                               Float64 (roll_mean (numeric closes) w w)]); [done|].
    repeat constructor; cbn [columns assoc];
      rewrite ?eqb_price_sma by (apply list_elem_of_In; simpl; tauto); simpl;
      rewrite ?assoc_assign_ne
        by (apply sma_name_not_price; apply list_elem_of_In; simpl; tauto);
      rewrite ?assoc_assign_eq; done.
  - simpl. apply lookup_insert_eq.
  - done.
  - done.
Qed.

(** X15. Unlike [apple_stock_analysis.py], [apple_stock_data.py] is
    parameterized by the window throughout: for a price series and
    every window [0 <= w < 2^63], with both output paths writable, the
    run completes.  The CSV header ends in [f'{w}_SMA'], and the chart,
    always named [apple_chart.png] whatever the ticker, plots the
    closes and that moving average against the trading days. *)
Theorem data_run_succeeds E σ ticker w df dates closes o h l :
  yf_download E ticker (now E - 365)%Z (now E) = Downloaded df ->
  price_series df dates closes ->
  assoc "Open" (columns df) = Some o ->
  assoc "High" (columns df) = Some h ->
  assoc "Low" (columns df) = Some l ->
  (0 <= w <= int64_max)%Z ->
  writable E "apple_stock_data.csv" = true ->
  writable E "apple_chart.png" = true ->
  exists σ',
    apple_stock_data.main_with E ticker w σ = (Ok tt, σ') /\
    files σ'
    = <["apple_chart.png" :=
          PngFile
            {| title := ticker +:+ " - Closing Price & " +:+ pretty w +:+ "-Day SMA";
               lines := [("Close Price", Datetime64 dates, Float64 (numeric closes));
                         (pretty w +:+ "-Day SMA", Datetime64 dates,
                          Float64 (roll_mean (numeric closes) w w))] |}]>
        (<["apple_stock_data.csv" :=
             CsvFile (csv_of (price_table dates o h l closes w))]> (files σ)) /\
    header_line (csv_of (price_table dates o h l closes w))
    = "Date,Open,High,Low,Close," +:+ sma_name w /\
    stdout σ'
    = stdout σ
      ++ [[Text "Fetching data for "; Text ticker; Text " from ";
           Day (now E - 365)%Z; Text " to "; Day (now E); Text "..."];
          [Text "Data saved to "; Text "apple_stock_data.csv"];
          [Text "Plot saved as "; Text "apple_chart.png"]].
Proof.
  intros Hd Hps Ho Hh Hl Hw Hwc Hwp.
  unfold apple_stock_data.main_with.
  unfold bind at 1. unfold print at 1.
  match goal with |- context [bind _ _ ?s] => set (σ0 := s) end.
  destruct (data_before_save E σ0 ticker w df dates closes o h l)
    as (final_data & σ3 & Hrun & Hl3 & Hf3 & Hs3); [done..|].
  rewrite Hrun.
  erewrite bind_Ok; cycle 1.
  { unfold apple_stock_data.save_to_csv, to_csv, write_file, bind, load, print.
    rewrite Hl3. simpl. rewrite Hwc. done. }
  unfold apple_stock_data.plot_data, write_file, bind, load, lift, print. simpl.
  rewrite Hl3, price_table_Date, price_table_Close, price_table_sma, Hwp. simpl.
  eexists. split_and!; [done| |apply price_table_header_line|].
  - by rewrite Hf3.
  - rewrite Hs3. simpl. by rewrite <- !app_assoc.
Qed.

Lemma data_run_succeeds_witness :
  exists σ',
    apple_stock_data.main_with sample_env "MSFT" 3 (start ∅) = (Ok tt, σ') /\
    files σ'
    = <["apple_chart.png" :=
          PngFile
            {| title := "MSFT" +:+ " - Closing Price & " +:+ pretty 3%Z +:+ "-Day SMA";
               lines := [("Close Price",
                          Datetime64 [1; 2; 3; 4; 5; 8; 9; 10; 11; 12; 15; 16]%Z,
                          Float64 (numeric [1; 2; 3; 4; 5; 6; 7; 8; 9; 10; 11; 12]%Q));
                         (pretty 3%Z +:+ "-Day SMA",
                          Datetime64 [1; 2; 3; 4; 5; 8; 9; 10; 11; 12; 15; 16]%Z,
                          Float64 (roll_mean
                                     (numeric [1; 2; 3; 4; 5; 6; 7; 8; 9; 10; 11; 12]%Q)
                                     3 3))] |}]>
        (<["apple_stock_data.csv" :=
             CsvFile (csv_of (price_table
                                [1; 2; 3; 4; 5; 8; 9; 10; 11; 12; 15; 16]%Z
                                (Float64 (numeric [1; 2; 3; 4; 5; 6; 7; 8; 9; 10; 11; 12]%Q))
                                (Float64 (numeric [2; 3; 4; 5; 6; 7; 8; 9; 10; 11; 12; 13]%Q))
                                (Float64 (numeric [1; 1; 2; 3; 4; 5; 6; 7; 8; 9; 10; 11]%Q))
                                [1; 2; 3; 4; 5; 6; 7; 8; 9; 10; 11; 12]%Q 3))]>
           (files (start ∅))) /\
    header_line
      (csv_of (price_table
                 [1; 2; 3; 4; 5; 8; 9; 10; 11; 12; 15; 16]%Z
                 (Float64 (numeric [1; 2; 3; 4; 5; 6; 7; 8; 9; 10; 11; 12]%Q))
                 (Float64 (numeric [2; 3; 4; 5; 6; 7; 8; 9; 10; 11; 12; 13]%Q))
                 (Float64 (numeric [1; 1; 2; 3; 4; 5; 6; 7; 8; 9; 10; 11]%Q))
                 [1; 2; 3; 4; 5; 6; 7; 8; 9; 10; 11; 12]%Q 3))
    = "Date,Open,High,Low,Close," +:+ sma_name 3 /\
    stdout σ'
    = stdout (start ∅)
      ++ [[Text "Fetching data for "; Text "MSFT"; Text " from ";
           Day (now sample_env - 365)%Z; Text " to "; Day (now sample_env); Text "..."];
          [Text "Data saved to "; Text "apple_stock_data.csv"];
          [Text "Plot saved as "; Text "apple_chart.png"]].
Proof.
  apply (data_run_succeeds sample_env (start ∅) "MSFT" 3 sample_series
           [1; 2; 3; 4; 5; 8; 9; 10; 11; 12; 15; 16]%Z
           [1; 2; 3; 4; 5; 6; 7; 8; 9; 10; 11; 12]%Q);
    [reflexivity | apply sample_series_is_price_series
     | reflexivity | reflexivity | reflexivity | unfold int64_max; lia
     | reflexivity | reflexivity].
Defined.

(** X16. In [apple_stock_data.py] nothing catches an error after the
    fetch: when the CSV path cannot be written the process ends with a
    traceback of the [OSError] and status 1, having written no file
    and not started the chart.  (For a window the kernels do not take,
    [w >= 2^63], the run ends earlier, in the calculation step, the
    same way but for the error in the traceback.) *)
Theorem data_run_csv_unwritable E σ ticker w df dates closes :
  yf_download E ticker (now E - 365)%Z (now E) = Downloaded df ->
  price_series df dates closes ->
  (0 <= w)%Z ->
  writable E "apple_stock_data.csv" = false ->
  exists e,
    status (run_script (apple_stock_data.main_with E ticker w) σ) = 1%Z /\
    traceback (run_script (apple_stock_data.main_with E ticker w) σ) = Some e /\
    ((w <= int64_max)%Z -> e = OSError "apple_stock_data.csv") /\
    ((int64_max < w)%Z -> exists msg, e = OverflowError msg) /\
    files (final (run_script (apple_stock_data.main_with E ticker w) σ)) = files σ /\
    stdout (final (run_script (apple_stock_data.main_with E ticker w) σ))
    = stdout σ
      ++ [[Text "Fetching data for "; Text ticker; Text " from ";
           Day (now E - 365)%Z; Text " to "; Day (now E); Text "..."]].
Proof.
  intros Hd Hps Hw Hwc.
  pose proof (price_series_not_empty _ _ _ Hps) as Hne.
  pose proof Hps as [_ Hrows _ [o Ho] [h Hh] [l Hl] Hc Hlen _].
  destruct (Z.ltb_spec int64_max w) as [Hbig|Hfit].
  - assert (exists msg σ',
      apple_stock_data.main_with E ticker w σ = (Raise (OverflowError msg), σ')
      /\ files σ' = files σ
      /\ stdout σ'
         = stdout σ
           ++ [[Text "Fetching data for "; Text ticker; Text " from ";
                Day (now E - 365)%Z; Text " to "; Day (now E); Text "..."]])
      as (msg & σ' & Hrun & Hf & Hs).
    { unfold apple_stock_data.main_with.
      unfold bind at 1. unfold print at 1.
      erewrite bind_Ok by (by apply data_fetch_Ok).
      erewrite bind_Raise; cycle 1.
      { rewrite (data_calculate_sma_run _ _ df) by (simpl; apply lookup_insert_eq).
        unfold calculated, getitem. rewrite Hc, rolling_mean_overflow; [done|done| |done].
        simpl. unfold numeric. rewrite length_fmap, Hlen. by destruct dates. }
      eexists _, _. split_and!; done. }
    exists (OverflowError msg). unfold run_script. rewrite Hrun. simpl.
    split_and!; [done|done|lia|by eexists|done|done].
  - assert (exists σ',
      apple_stock_data.main_with E ticker w σ
      = (Raise (OSError "apple_stock_data.csv"), σ')
      /\ files σ' = files σ
      /\ stdout σ'
         = stdout σ
           ++ [[Text "Fetching data for "; Text ticker; Text " from ";
                Day (now E - 365)%Z; Text " to "; Day (now E); Text "..."]])
      as (σ' & Hrun & Hf & Hs).
    { unfold apple_stock_data.main_with.
      unfold bind at 1. unfold print at 1.
      match goal with |- context [bind _ _ ?s] => set (σ0 := s) end.
      destruct (data_before_save E σ0 ticker w df dates closes o h l)
        as (final_data & σ3 & Hrun & Hl3 & Hf3 & Hs3); [done..|].
      rewrite Hrun.
      erewrite bind_Raise; cycle 1.
      { unfold apple_stock_data.save_to_csv, to_csv, write_file, bind, load, print.
        rewrite Hl3. simpl. rewrite Hwc. done. }
      eexists. split_and!; done. }
    exists (OSError "apple_stock_data.csv"). unfold run_script. rewrite Hrun. simpl.
    split_and!; [done|done|done|lia|done|done].
Qed.

Lemma data_run_csv_unwritable_witness :
  exists e,
    status (run_script (apple_stock_data.main_with readonly_env "AAPL" 10) (start ∅)) = 1%Z /\
    traceback (run_script (apple_stock_data.main_with readonly_env "AAPL" 10) (start ∅))
    = Some e /\
    ((10 <= int64_max)%Z -> e = OSError "apple_stock_data.csv") /\
    ((int64_max < 10)%Z -> exists msg, e = OverflowError msg) /\
    files (final (run_script (apple_stock_data.main_with readonly_env "AAPL" 10) (start ∅)))
    = files (start ∅) /\
    stdout (final (run_script (apple_stock_data.main_with readonly_env "AAPL" 10) (start ∅)))
    = stdout (start ∅)
      ++ [[Text "Fetching data for "; Text "AAPL"; Text " from ";
           Day (now readonly_env - 365)%Z; Text " to "; Day (now readonly_env);
           Text "..."]].
Proof.
  apply (data_run_csv_unwritable readonly_env (start ∅) "AAPL" 10 sample_series
           [1; 2; 3; 4; 5; 8; 9; 10; 11; 12; 15; 16]%Z
           [1; 2; 3; 4; 5; 6; 7; 8; 9; 10; 11; 12]%Q);
    [reflexivity | apply sample_series_is_price_series | lia | reflexivity].
Defined.

(** X17. A negative window ends a run of [apple_stock_data.py] in the
    calculation step: the [ValueError] of the rolling-window
    constructor is not caught, so the process ends with its traceback
    and status 1 and writes no file. *)
Theorem data_run_negative_window E σ ticker w df dates closes :
  yf_download E ticker (now E - 365)%Z (now E) = Downloaded df ->
  price_series df dates closes ->
  (w < 0)%Z ->
  status (run_script (apple_stock_data.main_with E ticker w) σ) = 1%Z /\
  traceback (run_script (apple_stock_data.main_with E ticker w) σ)
  = Some (ValueError "window must be an integer 0 or greater") /\
  files (final (run_script (apple_stock_data.main_with E ticker w) σ)) = files σ.
Proof.
  intros Hd Hps Hw. pose proof (price_series_not_empty _ _ _ Hps) as Hne.
  destruct Hps as [Hix Hrows Hsorted _ _ _ Hc Hlen Hnodate].
  assert (exists σ',
    apple_stock_data.main_with E ticker w σ
    = (Raise (ValueError "window must be an integer 0 or greater"), σ')
    /\ files σ' = files σ) as (σ' & Hrun & Hf).
  { unfold apple_stock_data.main_with.
    unfold bind at 1. unfold print at 1.
    erewrite bind_Ok by (by apply data_fetch_Ok).
    erewrite bind_Raise; cycle 1.
    { rewrite (data_calculate_sma_run _ _ df) by (simpl; apply lookup_insert_eq).
      unfold calculated, getitem. rewrite Hc, rolling_mean_negative by done. done. }
    eexists. split; done. }
  unfold run_script. rewrite Hrun. done.
Qed.

Lemma data_run_negative_window_witness :
  status (run_script (apple_stock_data.main_with sample_env "AAPL" (-1)) (start ∅)) = 1%Z /\
  traceback (run_script (apple_stock_data.main_with sample_env "AAPL" (-1)) (start ∅))
  = Some (ValueError "window must be an integer 0 or greater") /\
  files (final (run_script (apple_stock_data.main_with sample_env "AAPL" (-1)) (start ∅)))
  = files (start ∅).
Proof.
  apply (data_run_negative_window sample_env (start ∅) "AAPL" (-1) sample_series
           [1; 2; 3; 4; 5; 8; 9; 10; 11; 12; 15; 16]%Z
           [1; 2; 3; 4; 5; 6; 7; 8; 9; 10; 11; 12]%Q);
    [reflexivity | apply sample_series_is_price_series | lia].
Defined.

(** X18. A chart that cannot be written does not undo the CSV file:
    when only the chart path is unwritable, a run of
    [apple_stock_analysis.py] leaves the CSV table behind, prints the
    error of the chart step and returns. *)
Theorem analysis_run_chart_unwritable E σ ticker days_back output_csv df dates closes o h l :
  yf_download E ticker (now E - days_back)%Z (now E) = Downloaded df ->
  price_series df dates closes ->
  assoc "Open" (columns df) = Some o ->
  assoc "High" (columns df) = Some h ->
  assoc "Low" (columns df) = Some l ->
  writable E output_csv = true ->
  writable E (apple_stock_analysis.lower ticker +:+ "_chart.png") = false ->
  exists σ',
    apple_stock_analysis.main_with E ticker 10 days_back output_csv σ = (Ok tt, σ') /\
    files σ'
    = <[output_csv := CsvFile (csv_of (price_table dates o h l closes 10))]> (files σ) /\
    last (stdout σ')
    = Some [Text "An error occurred: ";
            Exc (OSError (apple_stock_analysis.lower ticker +:+ "_chart.png"))].
Proof.
  intros Hd Hps Ho Hh Hl Hwc Hwp.
  destruct (analysis_before_save E σ ticker days_back df dates closes Hd Hps)
    as (σ1 & Hrun1 & Hl1 & Hf1 & Hs1).
  edestruct (process_and_save_run E (fresh (dom (frames σ))) output_csv σ1)
    as (σ2 & Hrun2 & Hf2 & Hs2);
    [exact Hl1|by eapply price_columns_selected|reflexivity|].
  rewrite Hwc in Hrun2, Hf2, Hs2.
  pose proof (process_and_save_frames E (fresh (dom (frames σ))) output_csv σ1 _ _ Hl1)
    as Hl2.
  rewrite Hrun2 in Hl2. simpl in Hl2.
  unfold apple_stock_analysis.main_with, try_except.
  rewrite Hrun1. erewrite bind_Ok by exact Hrun2.
  erewrite visualize_data_run; [|exact Hl2| |apply getitem_setitem].
  2:{ rewrite getitem_setitem_ne by done. unfold getitem.
      by rewrite (ps_close _ _ _ Hps). }
  rewrite Hwp. simpl. eexists. split_and!; [done| |].
  - simpl. by rewrite Hf2, Hf1.
  - simpl. by rewrite last_snoc.
Qed.

Lemma analysis_run_chart_unwritable_witness :
  exists σ',
    apple_stock_analysis.main_with chartless_env "AAPL" 10 365 "apple_stock_data.csv"
      (start ∅) = (Ok tt, σ') /\
    files σ'
    = <["apple_stock_data.csv" :=
          CsvFile (csv_of (price_table
                             [1; 2; 3; 4; 5; 8; 9; 10; 11; 12; 15; 16]%Z
                             (Float64 (numeric [1; 2; 3; 4; 5; 6; 7; 8; 9; 10; 11; 12]%Q))
                             (Float64 (numeric [2; 3; 4; 5; 6; 7; 8; 9; 10; 11; 12; 13]%Q))
                             (Float64 (numeric [1; 1; 2; 3; 4; 5; 6; 7; 8; 9; 10; 11]%Q))
                             [1; 2; 3; 4; 5; 6; 7; 8; 9; 10; 11; 12]%Q 10))]>
        (files (start ∅)) /\
    last (stdout σ')
    = Some [Text "An error occurred: ";
            Exc (OSError (apple_stock_analysis.lower "AAPL" +:+ "_chart.png"))].
Proof.
  apply (analysis_run_chart_unwritable chartless_env (start ∅) "AAPL" 365
           "apple_stock_data.csv" sample_series
           [1; 2; 3; 4; 5; 8; 9; 10; 11; 12; 15; 16]%Z
           [1; 2; 3; 4; 5; 6; 7; 8; 9; 10; 11; 12]%Q);
    [reflexivity | apply sample_series_is_price_series
     | reflexivity | reflexivity | reflexivity | reflexivity | reflexivity].
Defined.

(** X19. The chart step of [apple_stock_analysis.py] reads the column
    [10_SMA] whatever window was calculated: after a calculation step
    with a window [0 <= w < 2^63] other than 10, on a frame that has
    no column [10_SMA], it raises [KeyError] for that name and writes
    no chart, in the same way as the save step. *)
Theorem visualize_needs_window_10 E σ data ticker df close w :
  frames σ !! data = Some df ->
  getitem df "Close" = Ok close -> is_float close = true ->
  assoc "10_SMA" (columns df) = None ->
  (0 <= w <= int64_max)%Z -> w <> 10%Z ->
  exists σ',
    bind (apple_stock_analysis.calculate_sma data w)
         (fun d => apple_stock_analysis.visualize_data E d ticker) σ
    = (Raise (KeyError "10_SMA"), σ') /\
    files σ' = files σ.
Proof.
  intros Hl Hc Hfl Hnone Hw Hne.
  erewrite bind_Ok; cycle 1.
  { rewrite (analysis_calculate_sma_run _ _ df) by done.
    by apply calculated_rolled. }
  unfold apple_stock_analysis.visualize_data, write_file, bind, load, lift, print.
  simpl. rewrite lookup_insert_eq. simpl.
  rewrite getitem_setitem_ne, Hc
    by (apply sma_name_not_price; apply list_elem_of_In; simpl; tauto).
  unfold getitem, setitem. simpl.
  rewrite assoc_assign_ne, Hnone by (by intros ?%sma_name_10).
  by eexists.
Qed.

Lemma visualize_needs_window_10_witness :
  exists σ',
    bind (apple_stock_analysis.calculate_sma 0 2)
         (fun d => apple_stock_analysis.visualize_data sample_env d "AAPL") double_world
    = (Raise (KeyError "10_SMA"), σ') /\
    files σ' = files double_world.
Proof.
  apply (visualize_needs_window_10 sample_env double_world 0 "AAPL" double_frame
           (Double [2; 4; 6; 9]%float) 2);
    [reflexivity | reflexivity | reflexivity | reflexivity | unfold int64_max; lia | lia].
Defined.
